(** * openclaw-m2-memory-skill: hybrid retrieval and markdown synchronisation

    A shallow embedding of the design-bearing parts of the scripts
    [hybrid_search.py], [conversation_ingest.py], [memory_sync.py] and of the
    [MemoryClient.store] call of [memory_client.py], followed by the
    properties of these functions that the specification states.

    Conventions of the embedding.
    - Python [str] values are Rocq [string]s; the model covers ASCII text
      (one character per byte, [len] is [String.length]).
    - Python sets and dicts keyed by strings are stdpp's [gset string] and
      [gmap string _].
    - The dense score and the two weights of the hybrid ranker are exact
      rationals ([Q]); the importance of a record is a binary64 float
      ([PrimFloat.float]), computed with the kernel's IEEE operations.
    - The vector store, the clock and the files form an explicit [world]
      that every effectful function threads.  The embedding gateway and
      the database are taken to answer; their failures are not modelled.
    - [sync_from_markdown] receives the text of the markdown file along
      with its path; what the store returns to [hybrid_search] and to
      [export_to_markdown] is an argument of the model. *)

From Stdlib Require Import ZArith QArith Floats Ascii String List Sorting.Permutation Sorting.Sorted Lia.
From stdpp Require Import base option list gmap sets strings pretty.

Local Open Scope string_scope.
Local Open Scope list_scope.

(* Decimal float literals are read as the nearest binary64 value, as in Python. *)
Set Warnings "-inexact-float".
(* [set_solver] clears hypotheses it has used up, some of them twice. *)
Set Warnings "-clear-no-such-hyp".

(** ** Python string primitives (ASCII) *)

Module Py.

Definition code (c : ascii) : nat := nat_of_ascii c.

Definition in_range (lo hi : nat) (c : ascii) : bool :=
  Nat.leb lo (code c) && Nat.leb (code c) hi.

Definition is_upper (c : ascii) : bool := in_range 65 90 c.
Definition is_lower (c : ascii) : bool := in_range 97 122 c.
Definition is_digit (c : ascii) : bool := in_range 48 57 c.
Definition is_alpha (c : ascii) : bool := is_upper c || is_lower c.

(** [\w] on ASCII text: letters, digits and the underscore. *)
Definition is_word (c : ascii) : bool :=
  is_alpha c || is_digit c || Nat.eqb (code c) 95.

(** [str.isspace] and [\s] on ASCII text: TAB, LF, VT, FF, CR, the four
    separators 0x1c-0x1f and the space. *)
Definition is_space (c : ascii) : bool :=
  in_range 9 13 c || in_range 28 32 c.

Definition is_hex (c : ascii) : bool :=
  is_digit c || in_range 65 70 c || in_range 97 102 c.

Definition lower_char (c : ascii) : ascii :=
  if is_upper c then ascii_of_nat (code c + 32) else c.

Fixpoint map_chars (f : ascii -> ascii) (s : string) : string :=
  match s with
  | EmptyString => EmptyString
  | String c s' => String (f c) (map_chars f s')
  end.

(** [s.lower()] *)
Definition lower (s : string) : string := map_chars lower_char s.

(** [s.replace(" ", "-")]: both strings are one character long. *)
Definition replace_space_hyphen (s : string) : string :=
  map_chars (fun c => if Ascii.eqb c " "%char then "-"%char else c) s.

(** [s.lstrip()], [s.rstrip()] and [s.strip()] *)
Fixpoint lstrip (s : string) : string :=
  match s with
  | String c s' => if is_space c then lstrip s' else s
  | EmptyString => EmptyString
  end.

Fixpoint rstrip (s : string) : string :=
  match s with
  | EmptyString => EmptyString
  | String c s' =>
      match rstrip s' with
      | EmptyString => if is_space c then EmptyString else String c EmptyString
      | r => String c r
      end
  end.

Definition strip (s : string) : string := rstrip (lstrip s).

(** [s.startswith(p)] *)
Fixpoint startswith (p s : string) : bool :=
  match p, s with
  | EmptyString, _ => true
  | String a p', String b s' => Ascii.eqb a b && startswith p' s'
  | String _ _, EmptyString => false
  end.

(** [sub in s] *)
Fixpoint contains (sub s : string) : bool :=
  startswith sub s ||
  match s with
  | EmptyString => false
  | String _ s' => contains sub s'
  end.

(** [s[n:]] and [s[:n]] for a non-negative literal [n] *)
Fixpoint str_drop (n : nat) (s : string) : string :=
  match n, s with
  | O, _ => s
  | S n', String _ s' => str_drop n' s'
  | S _, EmptyString => EmptyString
  end.

Fixpoint str_take (n : nat) (s : string) : string :=
  match n, s with
  | S n', String c s' => String c (str_take n' s')
  | _, _ => EmptyString
  end.

(** [s.split("\n")]: the result is never empty. *)
Definition LF : ascii := ascii_of_nat 10.

Fixpoint split_lines (s : string) : list string :=
  match s with
  | EmptyString => [EmptyString]
  | String c s' =>
      if Ascii.eqb c LF then EmptyString :: split_lines s'
      else match split_lines s' with
           | l :: ls => String c l :: ls
           | [] => [String c EmptyString]
           end
  end.

(** Truthiness of a string: [if s:] *)
Definition truthy (s : string) : bool :=
  match s with EmptyString => false | _ => true end.

(** [l[:k]] on a list for an arbitrary integer [k]: a negative bound counts
    from the end. *)
Definition slice_to {A} (k : Z) (l : list A) : list A :=
  if (0 <=? k)%Z then firstn (Z.to_nat k) l
  else firstn (length l - Z.to_nat (- k)) l.

End Py.

(** ** The fragment of Python's [re] that the scripts use

    A backtracking matcher with Python's priorities: an alternation tries
    its left branch first, a quantifier is greedy and gives characters back
    one at a time.  Quantifiers range over character classes only, which is
    all that the patterns of the scripts need. *)

Module Re.

Inductive re : Type :=
| Lit (c : ascii)             (* a literal character *)
| Cls (p : ascii -> bool)     (* one character of a class *)
| Opt (c : ascii)             (* [c?] *)
| Plus (p : ascii -> bool)    (* [[...]+] *)
| Star (p : ascii -> bool)    (* [[...]*] *)
| Bnd                         (* [\b] *)
| Seq (r1 r2 : re)
| Alt (r1 r2 : re)
| Grp (r : re).               (* the capture group of the pattern *)

(** The state of a match attempt: the character before the cursor (for
    [\b]), the text after the cursor and the text captured so far. *)
Definition cont (R : Type) : Type :=
  option ascii -> list ascii -> option (list ascii) -> option R.

Definition word_at (c : option ascii) : bool :=
  match c with Some a => Py.is_word a | None => false end.

Definition at_boundary (prev : option ascii) (s : list ascii) : bool :=
  xorb (word_at prev) (word_at (head s)).

Fixpoint star {R} (p : ascii -> bool) (prev : option ascii) (s : list ascii)
    (k : option ascii -> list ascii -> option R) : option R :=
  match s with
  | c :: s' =>
      if p c then
        match star p (Some c) s' k with
        | Some r => Some r
        | None => k prev s
        end
      else k prev s
  | [] => k prev s
  end.

Fixpoint run {R} (r : re) (prev : option ascii) (s : list ascii)
    (g : option (list ascii)) (k : cont R) : option R :=
  match r with
  | Lit c =>
      match s with
      | a :: s' => if Ascii.eqb a c then k (Some a) s' g else None
      | [] => None
      end
  | Cls p =>
      match s with
      | a :: s' => if p a then k (Some a) s' g else None
      | [] => None
      end
  | Opt c =>
      match s with
      | a :: s' =>
          if Ascii.eqb a c then
            match k (Some a) s' g with
            | Some res => Some res
            | None => k prev s g
            end
          else k prev s g
      | [] => k prev s g
      end
  | Plus p =>
      match s with
      | a :: s' => if p a then star p (Some a) s' (fun q t => k q t g) else None
      | [] => None
      end
  | Star p => star p prev s (fun q t => k q t g)
  | Bnd => if at_boundary prev s then k prev s g else None
  | Seq r1 r2 => run r1 prev s g (fun q t g' => run r2 q t g' k)
  | Alt r1 r2 =>
      match run r1 prev s g k with
      | Some res => Some res
      | None => run r2 prev s g k
      end
  | Grp r1 =>
      run r1 prev s g
        (fun q t _ => k q t (Some (firstn (length s - length t) s)))
  end.

(** One attempt at the cursor: the number of characters matched and the
    text [findall] reports for it (the group when the pattern has one). *)
Definition match_here (r : re) (prev : option ascii) (s : list ascii)
  : option (nat * list ascii) :=
  run r prev s None
    (fun _ t g =>
       let n := length s - length t in
       Some (n, match g with Some x => x | None => firstn n s end)).

(** [re.findall]: scan from the left; after a match the scan resumes at its
    end ([skip] counts the characters of the current match still to pass). *)
Fixpoint scan (r : re) (prev : option ascii) (s : list ascii) (skip : nat)
  : list (list ascii) :=
  match s with
  | [] => []
  | c :: s' =>
      match skip with
      | S n => scan r (Some c) s' n
      | O =>
          match match_here r prev s with
          | Some (n, x) => x :: scan r (Some c) s' (Nat.pred n)
          | None => scan r (Some c) s' O
          end
      end
  end.

Definition findall (r : re) (text : string) : list string :=
  map string_of_list_ascii (scan r None (list_ascii_of_string text) O).

(** A literal string as a pattern. *)
Fixpoint lits (s : string) (r : re) : re :=
  match s with
  | EmptyString => r
  | String c s' => Seq (Lit c) (lits s' r)
  end.

End Re.

(** ** Records of the vector store, as the client hands them out *)

(** A search hit of [MemoryClient.search]: the payload fields the client
    copies out, and the similarity score. [get_recent] returns the same
    fields without the score. *)
Record memory : Type := {
  content : string;
  memory_type : string;
  importance : float;
  entities : list string;
  timestamp : string
}.

Record candidate : Type := {
  score : Q;
  payload : memory
}.

(** ** hybrid_search.py *)

Module Hybrid.

Import Re.

(** [\b\w+\b] *)
Definition pat_words : re := Seq Bnd (Seq (Plus Py.is_word) Bnd).

(** [\b[A-Z0-9][A-Za-z0-9_-]+\b] *)
Definition pat_originals : re :=
  Seq Bnd
    (Seq (Cls (fun c => Py.is_upper c || Py.is_digit c))
       (Seq (Plus (fun c => Py.is_word c || Ascii.eqb c "-"%char)) Bnd)).

(** [0x[0-9A-Fa-f]+] *)
Definition pat_hex : re := lits "0x" (Plus Py.is_hex).

Definition extract_keywords (text : string) : gset string :=
  let words : gset string := list_to_set (findall pat_words (Py.lower text)) in
  let originals : gset string := list_to_set (findall pat_originals text) in
  let hex_patterns : gset string := list_to_set (findall pat_hex text) in
  words ∪ originals ∪ hex_patterns.

(** The body of the re-ranking loop up to [keyword_score]. *)
Definition keyword_score (query_keywords content_keywords : gset string) : Q :=
  if decide (query_keywords = ∅) then 0
  else
    let overlap := size (query_keywords ∩ content_keywords) in
    inject_Z (Z.of_nat overlap) / inject_Z (Z.of_nat (size query_keywords)).

(** An entry of [scored_results]: the hit with the three scores added. *)
Record scored : Type := {
  hit : candidate;
  dense_score : Q;
  keyword_score_of : Q;
  combined_score : Q
}.

Definition score_candidate (query_keywords : gset string)
    (dense_weight keyword_weight : Q) (r : candidate) : scored :=
  let content_keywords := extract_keywords (content (payload r)) in
  let ks := keyword_score query_keywords content_keywords in
  {| hit := r;
     dense_score := score r;
     keyword_score_of := ks;
     combined_score := dense_weight * score r + keyword_weight * ks |}.

(** [list.sort(key=..., reverse=True)]: a stable sort, descending in the
    key.  The stable arrangement of a list is unique, so insertion models
    it: an element goes in front of the first one whose key is not larger. *)
Fixpoint insert_desc {A} (key : A -> Q) (x : A) (l : list A) : list A :=
  match l with
  | [] => [x]
  | y :: l' =>
      if Qle_bool (key y) (key x) then x :: l
      else y :: insert_desc key x l'
  end.

Definition sort_desc {A} (key : A -> Q) (l : list A) : list A :=
  foldr (insert_desc key) [] l.

(** Everything [hybrid_search] does with the hits the store returned. *)
Definition rerank (query : string) (limit : Z) (dense_weight keyword_weight : Q)
    (dense_results : list candidate) : list scored :=
  let query_keywords := extract_keywords query in
  let scored_results :=
    map (score_candidate query_keywords dense_weight keyword_weight) dense_results in
  Py.slice_to limit (sort_desc combined_score scored_results).

(** [search query n] stands for [await client.search(query, limit=n)] on the
    client of the agent. *)
Definition hybrid_search (search : string -> Z -> list candidate)
    (query : string) (limit : Z) (dense_weight keyword_weight : Q) : list scored :=
  let dense_results := search query (limit * 2)%Z in
  rerank query limit dense_weight keyword_weight dense_results.

End Hybrid.

(** ** MD5 ([hashlib.md5]), after RFC 1321

    [content_hash] keys the sync ledger and the export filter by a prefix
    of this digest, so the digest is part of the model and computes. *)

Module MD5.

Local Open Scope Z_scope.

Definition mask32 (x : Z) : Z := Z.land x 0xffffffff.
Definition not32 (x : Z) : Z := Z.lxor x 0xffffffff.
Definition rotl32 (x c : Z) : Z :=
  mask32 (Z.lor (Z.shiftl x c) (Z.shiftr x (32 - c))).

Definition shifts : list Z :=
  [7; 12; 17; 22; 7; 12; 17; 22; 7; 12; 17; 22; 7; 12; 17; 22;
   5; 9; 14; 20; 5; 9; 14; 20; 5; 9; 14; 20; 5; 9; 14; 20;
   4; 11; 16; 23; 4; 11; 16; 23; 4; 11; 16; 23; 4; 11; 16; 23;
   6; 10; 15; 21; 6; 10; 15; 21; 6; 10; 15; 21; 6; 10; 15; 21].

(** [floor (2^32 * abs (sin (i + 1)))] for [i = 0 .. 63] *)
Definition sines : list Z :=
  [0xd76aa478; 0xe8c7b756; 0x242070db; 0xc1bdceee;
   0xf57c0faf; 0x4787c62a; 0xa8304613; 0xfd469501;
   0x698098d8; 0x8b44f7af; 0xffff5bb1; 0x895cd7be;
   0x6b901122; 0xfd987193; 0xa679438e; 0x49b40821;
   0xf61e2562; 0xc040b340; 0x265e5a51; 0xe9b6c7aa;
   0xd62f105d; 0x02441453; 0xd8a1e681; 0xe7d3fbc8;
   0x21e1cde6; 0xc33707d6; 0xf4d50d87; 0x455a14ed;
   0xa9e3e905; 0xfcefa3f8; 0x676f02d9; 0x8d2a4c8a;
   0xfffa3942; 0x8771f681; 0x6d9d6122; 0xfde5380c;
   0xa4beea44; 0x4bdecfa9; 0xf6bb4b60; 0xbebfbc70;
   0x289b7ec6; 0xeaa127fa; 0xd4ef3085; 0x04881d05;
   0xd9d4d039; 0xe6db99e5; 0x1fa27cf8; 0xc4ac5665;
   0xf4292244; 0x432aff97; 0xab9423a7; 0xfc93a039;
   0x655b59c3; 0x8f0ccc92; 0xffeff47d; 0x85845dd1;
   0x6fa87e4f; 0xfe2ce6e0; 0xa3014314; 0x4e0811a1;
   0xf7537e82; 0xbd3af235; 0x2ad7d2bb; 0xeb86d391].

Definition state : Type := (Z * Z * Z * Z)%type.

Definition init : state := (0x67452301, 0xefcdab89, 0x98badcfe, 0x10325476).

(** The message, one byte per character, then the bit 1, zeros up to
    56 modulo 64, and the bit length on 8 bytes, least significant first. *)
Fixpoint le_bytes (n : nat) (x : Z) : list Z :=
  match n with
  | O => []
  | S n' => Z.land x 0xff :: le_bytes n' (Z.shiftr x 8)
  end.

Definition pad (msg : list Z) : list Z :=
  let len := Z.of_nat (length msg) in
  let zeros := Z.to_nat ((55 - len) mod 64) in
  msg ++ [0x80] ++ repeat 0 zeros ++ le_bytes 8 (8 * len).

Definition word_of (bs : list Z) : Z :=
  foldr (fun b acc => b + 256 * acc) 0 bs.

(** [n] groups of [k] elements each from the front of [l]. *)
Fixpoint groups {A} (n k : nat) (l : list A) : list (list A) :=
  match n with
  | O => []
  | S n' => firstn k l :: groups n' k (skipn k l)
  end.

Definition round (M : list Z) (st : state) (i : nat) : state :=
  let '(a, b, c, d) := st in
  let iz := Z.of_nat i in
  let '(f, g) :=
    if (iz <? 16) then (Z.lor (Z.land b c) (Z.land (not32 b) d), iz)
    else if (iz <? 32) then (Z.lor (Z.land d b) (Z.land (not32 d) c), (5 * iz + 1) mod 16)
    else if (iz <? 48) then (Z.lxor b (Z.lxor c d), (3 * iz + 5) mod 16)
    else (Z.lxor c (Z.lor b (not32 d)), (7 * iz) mod 16) in
  let f' := mask32 (f + a + nth i sines 0 + nth (Z.to_nat g) M 0) in
  (d, mask32 (b + rotl32 f' (nth i shifts 0)), b, c).

Definition block (st : state) (chunk : list Z) : state :=
  let M := map word_of (groups 16 4 chunk) in
  let '(a, b, c, d) := st in
  let '(a', b', c', d') := fold_left (round M) (seq 0 64) st in
  (mask32 (a + a'), mask32 (b + b'), mask32 (c + c'), mask32 (d + d')).

Definition digest (msg : list Z) : list Z :=
  let p := pad msg in
  let '(a, b, c, d) := fold_left block (groups (length p / 64) 64 p) init in
  le_bytes 4 a ++ le_bytes 4 b ++ le_bytes 4 c ++ le_bytes 4 d.

Definition hex_digit (x : Z) : ascii :=
  ascii_of_nat (Z.to_nat (if x <? 10 then 48 + x else 87 + x)).

Fixpoint hex (bs : list Z) : string :=
  match bs with
  | [] => EmptyString
  | b :: bs' => String (hex_digit (b / 16)) (String (hex_digit (b mod 16)) (hex bs'))
  end.

(** [hashlib.md5(text.encode()).hexdigest()] *)
Definition hexdigest (text : string) : string :=
  hex (digest (map (fun c => Z.of_nat (nat_of_ascii c)) (list_ascii_of_string text))).

End MD5.

(** ** The world of the scripts: vector store, clock, files *)

(** A point as [MemoryClient.store] builds it.  The fields that [store]
    fills with constants (the consolidation flags, the usage counters, the
    ColBERT fields) are left out; the embedding vector is the gateway's. *)
Record point : Type := {
  point_id : string;
  point_content : string;
  point_memory_type : string;
  point_agent_id : string;
  point_importance : float;
  point_initial_importance : float;
  point_timestamp : string;
  point_entities : list string;
  point_session_id : option string;
  point_metadata : list (string * string);
  point_importance_history : list float
}.

(** An entry of the sync ledger, and the ledger: [{hash: {header, synced_at}}]. *)
Record entry : Type := {
  entry_header : string;
  entry_synced_at : string
}.

Abbreviation ledger := (gmap string entry).

(** What a file holds, as [json.load] sees it: a JSON object with string
    keys (only the keys of a ledger are ever read), or text that is not a
    JSON document.  JSON documents that are not objects are not modelled. *)
Inductive file : Type :=
| Json (d : ledger)
| Text (raw : string).

Record world : Type := {
  points : list point;     (* the collection, in order of insertion *)
  files : gmap string file;
  clock : nat;             (* the instant [datetime.utcnow()] returns next *)
  uuids : nat              (* how many ids [uuid4()] has drawn *)
}.

Inductive exn : Type := JSONDecodeError.

Inductive result (A : Type) : Type :=
| Return (a : A)
| Raise (e : exn).
Arguments Return {A} a.
Arguments Raise {A} e.

Module Client.

(** [os.getenv("AGENT_ID", "m2")] with the variable unset. *)
Definition DEFAULT_AGENT_ID : string := "m2".

(** [datetime.utcnow().isoformat()]: the text of the instant; time moves on. *)
Definition utcnow (w : world) : string * world :=
  (pretty (clock w),
   {| points := points w; files := files w; clock := S (clock w); uuids := uuids w |}).

(** [str(uuid4())]: an identifier never drawn before. *)
Definition uuid4 (w : world) : string * world :=
  (pretty (uuids w),
   {| points := points w; files := files w; clock := clock w; uuids := S (uuids w) |}).

Definition upsert (p : point) (w : world) : world :=
  {| points := points w ++ [p]; files := files w; clock := clock w; uuids := uuids w |}.

(** [MemoryClient.store]: one point is added to the collection and its id
    returned.  Failures of the gateway and of the database are outside the
    model. *)
Definition store (content memory_type : string) (importance : float)
    (entities : list string) (session_id : option string)
    (metadata : list (string * string)) (w : world) : string * world :=
  let '(memory_id, w) := uuid4 w in
  let '(now, w) := utcnow w in
  let p := {| point_id := memory_id;
              point_content := content;
              point_memory_type := memory_type;
              point_agent_id := DEFAULT_AGENT_ID;
              point_importance := importance;
              point_initial_importance := importance;
              point_timestamp := now;
              point_entities := entities;
              point_session_id := session_id;
              point_metadata := metadata;
              point_importance_history := [importance] |} in
  (memory_id, upsert p w).

End Client.

(** ** conversation_ingest.py *)

Module Ingest.

Import Re.

(** [@(\w+)] *)
Definition pat_mention : re := Seq (Lit "@"%char) (Grp (Plus Py.is_word)).

(** [https?://([^\s/]+)] *)
Definition pat_domain : re :=
  lits "http" (Seq (Opt "s"%char)
    (lits "://" (Grp (Plus (fun c => negb (Py.is_space c || Ascii.eqb c "/"%char)))))).

(** [\b(A|B)\b] with [A = [a-z]+_[a-z_]+] and
    [B = [A-Z][a-z]+[A-Z][a-zA-Z]*], the only group of the pattern. *)
Definition pat_code : re :=
  Seq Bnd
    (Seq (Grp (Alt
            (Seq (Plus Py.is_lower)
               (Seq (Lit "_"%char) (Plus (fun c => Py.is_lower c || Ascii.eqb c "_"%char))))
            (Seq (Cls Py.is_upper)
               (Seq (Plus Py.is_lower) (Seq (Cls Py.is_upper) (Star Py.is_alpha))))))
       Bnd).

Definition keywords : list string :=
  ["coolify"; "docker"; "github"; "memory"; "skill"; "ollama"; "qdrant"].

(** The list [entities] before deduplication. *)
Definition raw_entities (text : string) : list string :=
  let mentions := findall pat_mention text in
  let domains := findall pat_domain text in
  let code_terms := findall pat_code text in
  mentions ++ domains ++ firstn 5 code_terms
  ++ filter (fun kw => Py.contains kw (Py.lower text) = true) keywords.

(** [list(set(entities))[:10]].  CPython enumerates a set in hash order;
    the model enumerates it in the order of [elements]. *)
Definition extract_entities (text : string) : list string :=
  firstn 10 (elements (list_to_set (raw_entities text) : gset string)).

Definition any_in (ws : list string) (text : string) : bool :=
  existsb (fun w => Py.contains w text) ws.

(** [min(a, b)] of Python: [b] when [b < a], else [a]. *)
Definition py_min (a b : float) : float :=
  if PrimFloat.ltb b a then b else a.

Definition calculate_importance (text role : string) : float :=
  let importance := 0.5%float in
  let importance :=
    if String.eqb role "user" then
      let importance := (importance + 0.1)%float in
      if any_in ["prefer"; "want"; "need"; "important"; "remember"] (Py.lower text)
      then (importance + 0.2)%float else importance
    else importance in
  let importance :=
    if String.eqb role "assistant" then
      if any_in ["created"; "installed"; "configured"; "deployed"] (Py.lower text)
      then (importance + 0.15)%float else importance
    else importance in
  let importance :=
    if Nat.ltb 200 (String.length text) then (importance + 0.1)%float else importance in
  py_min importance 1.0%float.

(** Opening and closing the client reach neither the store nor the files. *)
Definition ingest_turn (content role : string) (session_id : option string)
    (w : world) : option string * world :=
  let entities := extract_entities content in
  let importance := calculate_importance content role in
  if Nat.ltb (String.length content) 20 then (None, w)
  else
    let '(now, w) := Client.utcnow w in
    let '(memory_id, w) :=
      Client.store ("[" +:+ role +:+ "] " +:+ content) "episodic" importance entities
        session_id [("role", role); ("ingested_at", now)] w in
    (Some memory_id, w).

End Ingest.

(** ** memory_sync.py *)

Module Sync.

(** [hashlib.md5(text.encode()).hexdigest()[:12]] *)
Definition content_hash (text : string) : string :=
  Py.str_take 12 (MD5.hexdigest text).

(** *** Import *)

Record section : Type := {
  header : string;
  body : string        (* the key ["content"] of the dict *)
}.

Definition parse_line (st : list section * section) (line : string)
  : list section * section :=
  let '(sections, current) := st in
  if Py.startswith "## " line then
    (if Py.truthy (Py.strip (body current)) then sections ++ [current] else sections,
     {| header := Py.strip (Py.str_drop 3 line); body := "" |})
  else if negb (Py.startswith "# " line) then
    (sections,
     {| header := header current;
        body := body current +:+ line +:+ String Py.LF "" |})
  else st.

Definition parse_sections (content : string) : list section :=
  let '(sections, current) :=
    fold_left parse_line (Py.split_lines content) ([], {| header := ""; body := "" |}) in
  if Py.truthy (Py.strip (body current)) then sections ++ [current] else sections.

Record stats : Type := {
  new : nat;
  skipped : nat;
  updated : nat
}.

(** The variables the import loop updates. *)
Record loop : Type := {
  loop_world : world;
  sync_state : ledger;
  loop_stats : stats
}.

Definition stored_content (s : section) : string :=
  let text := Py.strip (body s) in
  if Py.truthy (header s) then header s +:+ ": " +:+ text else text.

Definition stored_entities (s : section) : list string :=
  if Py.truthy (header s) then [Py.replace_space_hyphen (Py.lower (header s))] else [].

(** One iteration of [for section in sections]. *)
Definition import_section (filepath : string) (st : loop) (s : section) : loop :=
  let text := Py.strip (body s) in
  if Nat.ltb (String.length text) 30 then st
  else
    let h := content_hash text in
    if decide (is_Some (sync_state st !! h)) then
      {| loop_world := loop_world st;
         sync_state := sync_state st;
         loop_stats := {| new := new (loop_stats st);
                          skipped := S (skipped (loop_stats st));
                          updated := updated (loop_stats st) |} |}
    else
      let '(t1, w) := Client.utcnow (loop_world st) in
      let '(_, w) :=
        Client.store (stored_content s) "semantic" 0.7%float (stored_entities s) None
          [("source", filepath); ("synced_at", t1)] w in
      let '(t2, w) := Client.utcnow w in
      {| loop_world := w;
         sync_state := <[h := {| entry_header := header s; entry_synced_at := t2 |}]> (sync_state st);
         loop_stats := {| new := S (new (loop_stats st));
                          skipped := skipped (loop_stats st);
                          updated := updated (loop_stats st) |} |}.

(** The sections that pass the length test of the loop, and the key the
    loop computes for a section. *)
Definition qualifies (s : section) : bool :=
  negb (Nat.ltb (String.length (Py.strip (body s))) 30).

Definition identity (s : section) : string :=
  content_hash (Py.strip (body s)).

Definition fresh_stats : stats := {| new := 0; skipped := 0; updated := 0 |}.

(** The counts a run returned, [fresh_stats] when it raised. *)
Definition returned_stats (r : result stats * world) : stats :=
  match fst r with Return s => s | Raise _ => fresh_stats end.

(** [for section in sections: ...] from the ledger [d] in the world [w]. *)
Definition import_pass (filepath : string) (sections : list section)
    (d : ledger) (w : world) : loop :=
  fold_left (import_section filepath) sections
    {| loop_world := w; sync_state := d; loop_stats := fresh_stats |}.

(** [if sync_state_path:] - neither [None] nor the empty string. *)
Definition given (sync_state_path : option string) : option string :=
  match sync_state_path with
  | Some p => if Py.truthy p then Some p else None
  | None => None
  end.

(** The first lines of the function: the ledger the pass starts from.
    [json.load] raises on a file that is not JSON. *)
Definition load_sync_state (sync_state_path : option string) (w : world)
  : result ledger :=
  match given sync_state_path with
  | Some p =>
      match files w !! p with
      | Some (Json d) => Return d
      | Some (Text _) => Raise JSONDecodeError
      | None => Return ∅
      end
  | None => Return ∅
  end.

Definition save_sync_state (sync_state_path : option string) (d : ledger)
    (w : world) : world :=
  match given sync_state_path with
  | Some p =>
      {| points := points w; files := <[p := Json d]> (files w);
         clock := clock w; uuids := uuids w |}
  | None => w
  end.

(** [sync_from_markdown(filepath, sync_state_path)], where [content] is the
    text [f.read()] returns for [filepath]. *)
Definition sync_from_markdown (filepath content : string)
    (sync_state_path : option string) (w : world) : result stats * world :=
  match load_sync_state sync_state_path w with
  | Raise e => (Raise e, w)
  | Return d =>
      let sections := parse_sections content in
      let st := import_pass filepath sections d w in
      (Return (loop_stats st),
       save_sync_state sync_state_path (sync_state st) (loop_world st))
  end.

(** *** Export *)

(** One pass of the two filtering loops: [seen_hashes] and the list a
    record is appended to. *)
Definition keep_first (st : gset string * list memory) (mem : memory)
  : gset string * list memory :=
  let '(seen_hashes, kept) := st in
  let h := content_hash (content mem) in
  if decide (h ∈ seen_hashes) then st
  else ({[h]} ∪ seen_hashes, kept ++ [mem]).

Definition keep_episodic (st : gset string * list memory) (mem : memory)
  : gset string * list memory :=
  if String.eqb (memory_type mem) "episodic" then keep_first st mem else st.

Record organized : Type := {
  semantic_knowledge : list memory;
  recent_conversations : list memory;
  seen : gset string
}.

(** [semantic] is the result of [client.search], [episodic] that of
    [client.get_recent]. *)
Definition organize (semantic episodic : list memory) : organized :=
  let '(seen1, sk) := fold_left keep_first semantic (∅, []) in
  let '(seen2, rc) := fold_left keep_episodic episodic (seen1, []) in
  {| semantic_knowledge := sk; recent_conversations := rc; seen := seen2 |}.

Section Render.

(** [f"{x:.1f}"] and [f"{x}"] on floats are the formatter's. *)
Variable fixed1 : float -> string.
Variable repr : float -> string.

Fixpoint join (sep : string) (l : list string) : string :=
  match l with
  | [] => ""
  | [x] => x
  | x :: l' => x +:+ sep +:+ join sep l'
  end.

Definition render_memory (mem : memory) : list string :=
  let text :=
    Py.strip (Py.map_chars (fun c => if Ascii.eqb c Py.LF then " "%char else c) (content mem)) in
  ("- **[" +:+ fixed1 (importance mem) +:+ "]** " +:+ Py.str_take 200 text)
  :: match entities mem with
     | [] => []
     | es => ["  - *Tags: " +:+ join ", " (firstn 5 es) +:+ "*"]
     end.

Definition render_group (title : string) (memories : list memory) : list string :=
  match memories with
  | [] => []
  | _ => ("## " +:+ title) :: "" :: concat (map render_memory memories) ++ [""]
  end.

Definition export_to_markdown (output_path : string) (min_importance : float)
    (semantic episodic : list memory) (w : world) : nat * world :=
  let o := organize semantic episodic in
  let '(now, w) := Client.utcnow w in
  let lines :=
    ["# Memory Export";
     "*Exported: " +:+ now +:+ "*";
     "*Min importance: " +:+ repr min_importance +:+ "*";
     ""]
    ++ render_group "Semantic Knowledge" (semantic_knowledge o)
    ++ render_group "Recent Conversations" (recent_conversations o) in
  (size (seen o),
   {| points := points w;
      files := <[output_path := Text (join (String Py.LF "") lines)]> (files w);
      clock := clock w; uuids := uuids w |}).

End Render.

End Sync.

(** ** Sample data *)

Module Sample.

Import Sync.

Definition w0 : world := {| points := []; files := ∅; clock := 0; uuids := 0 |}.

(** Two sections with the same body, and one that is too short. *)
Definition doc : string :=
  "# Title
## Project Notes
The deployment runs on docker with three replicas.
## Short
tiny
## Project Notes Again
The deployment runs on docker with three replicas.
".

(** The same world with a ledger file that is not JSON. *)
Definition w_corrupt : world :=
  {| points := []; files := {[ "sync.json" := Text "{not json" ]}; clock := 0; uuids := 0 |}.

Definition first_section : section :=
  {| header := "Project Notes";
     body := "The deployment runs on docker with three replicas." +:+ String Py.LF "" |}.

Definition hit_of (dense : Q) (text : string) : candidate :=
  {| score := dense;
     payload := {| content := text; memory_type := "semantic"; importance := 0.7%float;
                   entities := []; timestamp := "" |} |}.

(** Three hits in the order of their dense score, and a store that answers
    every query with the first [n] of them. *)
Definition hits : list candidate :=
  [hit_of (9 # 10) "the dashboard theme is configurable";
   hit_of (6 # 10) "parser error 0x1F on startup";
   hit_of (6 # 10) "startup order of the services"].

Definition search (query : string) (n : Z) : list candidate :=
  firstn (Z.to_nat n) hits.

End Sample.

(** * More of the scripts *)

(** ** Further Python primitives *)

Module PyMore.

(** [s.split()]: the maximal runs of characters that are not whitespace. *)
Fixpoint split_ws (s : string) : list string :=
  match s with
  | EmptyString => []
  | String c s' =>
      if Py.is_space c then split_ws s'
      else
        match s' with
        | EmptyString => [String c EmptyString]
        | String c' _ =>
            if Py.is_space c' then String c EmptyString :: split_ws s'
            else match split_ws s' with
                 | w :: ws => String c w :: ws
                 | [] => [String c EmptyString]
                 end
        end
  end.

(** [a / b] on two lengths: [None] stands for [ZeroDivisionError]. *)
Definition truediv (a b : nat) : option Q :=
  if Nat.eqb b 0 then None
  else Some (inject_Z (Z.of_nat a) / inject_Z (Z.of_nat b))%Q.

End PyMore.

(** ** hybrid_search.py: keyword_only_search *)

Module KeywordOnly.

Import Hybrid.

(** The payload of a point of the scroll page; [payload.get] reads it, so
    every key may be missing. *)
Record scrolled : Type := {
  payload_content : option string;
  payload_memory_type : option string;
  payload_importance : option float
}.

Record kw_hit : Type := {
  kw_content : string;
  kw_memory_type : option string;
  kw_importance : option float;
  kw_keyword_score : Q;
  matched_keywords : list string
}.

(** One iteration of the loop over the points: the entries it appends to
    [results], or [None] when the division raises. *)
Definition score_point (query_keywords : gset string) (p : scrolled)
  : option (list kw_hit) :=
  let content := default "" (payload_content p) in
  let content_keywords := extract_keywords content in
  if decide (query_keywords = ∅) then Some []
  else
    let overlap := size (query_keywords ∩ content_keywords) in
    if Nat.ltb 0 overlap then
      match PyMore.truediv overlap (size query_keywords) with
      | Some ks =>
          Some [{| kw_content := content;
                   kw_memory_type := payload_memory_type p;
                   kw_importance := payload_importance p;
                   kw_keyword_score := ks;
                   matched_keywords := elements (query_keywords ∩ content_keywords) |}]
      | None => None
      end
    else Some [].

Fixpoint collect (query_keywords : gset string) (page : list scrolled)
  : option (list kw_hit) :=
  match page with
  | [] => Some []
  | p :: page' =>
      match score_point query_keywords p with
      | None => None
      | Some hs =>
          match collect query_keywords page' with
          | None => None
          | Some rest => Some (hs ++ rest)
          end
      end
  end.

(** [page] is [data.get("result", {}).get("points", [])], the one page of
    at most 100 points that the scroll request returns. *)
Definition keyword_only_search (query : string) (limit : Z) (page : list scrolled)
  : option (list kw_hit) :=
  let query_keywords := extract_keywords query in
  match collect query_keywords page with
  | None => None
  | Some results => Some (Py.slice_to limit (sort_desc kw_keyword_score results))
  end.

End KeywordOnly.

(** ** memory_client.py: import_markdown and count *)

Module ClientMore.

(** The three variables of the parsing loop: [sections], [current_header]
    and [current_section]. *)
Definition parse_line (st : list (string * string) * string * string) (line : string)
  : list (string * string) * string * string :=
  let '(sections, current_header, current_section) := st in
  if Py.startswith "## " line then
    (if Py.truthy (Py.strip current_section)
     then sections ++ [(current_header, Py.strip current_section)] else sections,
     Py.strip (Py.str_drop 3 line), "")
  else (sections, current_header, current_section +:+ line +:+ String Py.LF "").

Definition parse_sections (content : string) : list (string * string) :=
  let '(sections, current_header, current_section) :=
    fold_left parse_line (Py.split_lines content) ([], "", "") in
  if Py.truthy (Py.strip current_section)
  then sections ++ [(current_header, Py.strip current_section)] else sections.

(** One iteration of [for header, text in sections]. *)
Definition import_one (filepath : string) (st : nat * world) (s : string * string)
  : nat * world :=
  let '(count, w) := st in
  let '(header, text) := s in
  if Nat.ltb 50 (String.length text) then
    let entities :=
      if Py.truthy header then [Py.replace_space_hyphen (Py.lower header)] else [] in
    let '(_, w) :=
      Client.store (if Py.truthy header then header +:+ ": " +:+ text else text)
        "semantic" 0.7%float entities None
        [("source", filepath); ("header", header)] w in
    (S count, w)
  else st.

(** [import_markdown(filepath)], where [content] is the text of the file. *)
Definition import_markdown (filepath content : string) (w : world) : nat * world :=
  fold_left (import_one filepath) (parse_sections content) (0, w).

(** [count()]: the points of the collection that carry the agent's id. *)
Definition count (w : world) : nat :=
  length (List.filter (fun p => String.eqb (point_agent_id p) Client.DEFAULT_AGENT_ID)
            (points w)).

End ClientMore.

(** ** conversation_ingest.py: ingest_transcript *)

Module Transcript.

(** A turn of a JSON transcript: [turn.get] reads it, so both keys may be
    missing; present values are strings. *)
Record turn : Type := {
  turn_role : option string;
  turn_content : option string
}.

(** What [json.loads] makes of the text of a transcript. *)
Inductive parsed : Type :=
| NotJson                       (* raises [JSONDecodeError] *)
| Turns (data : list turn)      (* a list of objects *)
| Other.                        (* any other JSON document *)

(** [if text: mid = await ingest_turn(...); if mid: count += 1] *)
Definition ingest_counted (session_id : option string) (st : nat * world)
    (text role : string) : nat * world :=
  let '(count, w) := st in
  if Py.truthy text then
    let '(mid, w) := Ingest.ingest_turn text role session_id w in
    match mid with
    | Some memory_id => if Py.truthy memory_id then (S count, w) else (count, w)
    | None => (count, w)
    end
  else st.

Definition ingest_json_turn (session_id : option string) (st : nat * world) (t : turn)
  : nat * world :=
  let role := default "user" (turn_role t) in
  let text := default "" (turn_content t) in
  ingest_counted session_id st text role.

(** The role and the text of a line of the plain format. *)
Definition split_role (line : string) : string * string :=
  if Py.startswith "user:" (Py.lower line) then ("user", Py.strip (Py.str_drop 5 line))
  else if Py.startswith "assistant:" (Py.lower line)
  then ("assistant", Py.strip (Py.str_drop 10 line))
  else if Py.startswith "m2:" (Py.lower line) then ("assistant", Py.strip (Py.str_drop 3 line))
  else ("user", line).

Definition ingest_line (session_id : option string) (st : nat * world) (line : string)
  : nat * world :=
  let line := Py.strip line in
  if negb (Py.truthy line) then st
  else
    let '(role, text) := split_role line in
    ingest_counted session_id st text role.

(** [ingest_transcript(filepath, session_id)], where [content] is the text
    of the file and [json_loads] stands for [json.loads]. *)
Definition ingest_transcript (json_loads : string -> parsed) (content : string)
    (session_id : option string) (w : world) : nat * world :=
  match json_loads content with
  | Turns data => fold_left (ingest_json_turn session_id) data (0, w)
  | NotJson | Other =>
      fold_left (ingest_line session_id) (Py.split_lines content) (0, w)
  end.

End Transcript.

(** ** memory_sync.py: full_sync *)

Module FullSync.

Import Sync.

(** [sync_state_path or f"{markdown_path}.sync.json"] *)
Definition ledger_path (markdown_path : string) (sync_state_path : option string) : string :=
  match given sync_state_path with
  | Some p => p
  | None => markdown_path +:+ ".sync.json"
  end.

(** What [full_sync] prints: the counts of the import, the number of
    exported records when an export path is given, and the total. *)
Record report : Type := {
  import_stats : stats;
  exported : option nat;
  total : nat
}.

(** [full_sync(markdown_path, export_path, sync_state_path)], where
    [content] is the text of the markdown file and [semantic], [episodic]
    are what the store returns to the export. *)
Definition full_sync (fixed1 repr : float -> string)
    (markdown_path content : string) (export_path sync_state_path : option string)
    (semantic episodic : list memory) (w : world) : result report * world :=
  match sync_from_markdown markdown_path content
          (Some (ledger_path markdown_path sync_state_path)) w with
  | (Raise e, w) => (Raise e, w)
  | (Return s, w) =>
      let '(count, w) :=
        match given export_path with
        | Some out =>
            let '(n, w) :=
              export_to_markdown fixed1 repr out 0.6%float semantic episodic w in
            (Some n, w)
        | None => (None, w)
        end in
      (Return {| import_stats := s; exported := count; total := ClientMore.count w |}, w)
  end.

End FullSync.

(** ** benchmark.py: markdown_search *)

Module Bench.

Import Re.

(** The parsing loop of [markdown_search]: a title line is content. *)
Definition parse_line (st : list Sync.section * Sync.section) (line : string)
  : list Sync.section * Sync.section :=
  let '(sections, current) := st in
  if Py.startswith "## " line then
    (if Py.truthy (Py.strip (Sync.body current)) then sections ++ [current] else sections,
     {| Sync.header := Py.strip (Py.str_drop 3 line); Sync.body := "" |})
  else
    (sections,
     {| Sync.header := Sync.header current;
        Sync.body := Sync.body current +:+ line +:+ String Py.LF "" |}).

Definition parse_sections (content : string) : list Sync.section :=
  let '(sections, current) :=
    fold_left parse_line (Py.split_lines content)
      ([], {| Sync.header := ""; Sync.body := "" |}) in
  if Py.truthy (Py.strip (Sync.body current)) then sections ++ [current] else sections.

Record md_hit : Type := {
  md_score : Q;
  md_content : string;
  md_header : string;
  md_method : string
}.

(** [\w+] *)
Definition pat_word : re := Plus Py.is_word.

(** One iteration of the scoring loop: the entries appended to [scored],
    or [None] when the division raises. *)
Definition score_section (query_words : gset string) (s : Sync.section)
  : option (list md_hit) :=
  let text := Py.lower (Sync.header s +:+ " " +:+ Sync.body s) in
  let text_words : gset string := list_to_set (findall pat_word text) in
  let overlap := size (query_words ∩ text_words) in
  if Nat.ltb 0 overlap then
    match PyMore.truediv overlap (size query_words) with
    | Some sc =>
        Some [{| md_score := sc;
                 md_content := Py.str_take 200 (Py.strip (Sync.body s));
                 md_header := Sync.header s;
                 md_method := "markdown-keyword" |}]
    | None => None
    end
  else Some [].

Fixpoint collect (query_words : gset string) (sections : list Sync.section)
  : option (list md_hit) :=
  match sections with
  | [] => Some []
  | s :: sections' =>
      match score_section query_words s with
      | None => None
      | Some hs =>
          match collect query_words sections' with
          | None => None
          | Some rest => Some (hs ++ rest)
          end
      end
  end.

(** [markdown_search(filepath, query, limit)], where [content] is the text
    of the file. *)
Definition markdown_search (content query : string) (limit : Z) : option (list md_hit) :=
  let sections := parse_sections content in
  let query_words : gset string := list_to_set (PyMore.split_ws (Py.lower query)) in
  match collect query_words sections with
  | None => None
  | Some scored => Some (Py.slice_to limit (Hybrid.sort_desc md_score scored))
  end.

End Bench.

(** ** More sample data *)

Module SampleMore.

Definition page : list KeywordOnly.scrolled :=
  [{| KeywordOnly.payload_content := Some "parser error 0x1F on startup";
      KeywordOnly.payload_memory_type := Some "episodic";
      KeywordOnly.payload_importance := Some 0.7%float |};
   {| KeywordOnly.payload_content := None;
      KeywordOnly.payload_memory_type := None;
      KeywordOnly.payload_importance := None |};
   {| KeywordOnly.payload_content := Some "an error in the dashboard";
      KeywordOnly.payload_memory_type := Some "semantic";
      KeywordOnly.payload_importance := None |}].

Definition transcript : string :=
  "User: I prefer dark mode for the dashboard
m2: ok

assistant: I configured the dark theme for you
just a line that belongs to nobody in particular".

Definition not_json (text : string) : Transcript.parsed := Transcript.NotJson.

(** The sample document without its title line. *)
Definition doc_plain : string :=
  "## Project Notes
The deployment runs on docker with three replicas.
## Short
tiny
## Project Notes Again
The deployment runs on docker with three replicas.
".

(** The sample document with one more section. *)
Definition doc_grown : string :=
  Sample.doc +:+ "## Backups
Backups run nightly and are kept for thirty days.
".

(** Formatters for the floats of the export. *)
Definition fixed1 (x : float) : string := "0.7".
Definition repr (x : float) : string := "0.6".

(** What a first [full_sync] on the sample document reports. *)
Definition first_report : FullSync.report :=
  {| FullSync.import_stats := {| Sync.new := 1; Sync.skipped := 1; Sync.updated := 0 |};
     FullSync.exported := Some 0;
     FullSync.total := 1 |}.

End SampleMore.

(** * Vocabulary of the statements *)

(** ** Importance *)

Section Bonuses.

Import Ingest.

Local Open Scope float_scope.

(** The increments the estimator adds to the base, in the order of the code. *)
Definition user_bonus (role : string) : float :=
  if String.eqb role "user" then 0.1 else 0.

Definition preference_bonus (text role : string) : float :=
  if String.eqb role "user"
     && any_in ["prefer"; "want"; "need"; "important"; "remember"]%string (Py.lower text)
  then 0.2 else 0.

Definition action_bonus (text role : string) : float :=
  if String.eqb role "assistant"
     && any_in ["created"; "installed"; "configured"; "deployed"]%string (Py.lower text)
  then 0.15 else 0.

Definition length_bonus (text : string) : float :=
  if Nat.ltb 200 (String.length text) then 0.1 else 0.

End Bonuses.

(** ** Ranking *)

Section Order.

Local Open Scope Q_scope.

Context {A : Type} (key sec : A -> Q).

(** [x] stands ahead of [y]: a larger key, or the same key and a secondary
    value that is not smaller. *)
Definition ahead (x y : A) : Prop :=
  key y < key x \/ (key x == key y /\ sec y <= sec x).

Definition same_key (c : Q) (x : A) : bool := Qeq_bool (key x) c.

End Order.

(** The hits come from the store in the order of their dense score. *)
Definition dense_ranked (l : list candidate) : Prop :=
  StronglySorted (fun a b => (score b <= score a)%Q) l.

(** ** Import *)

Section ImportVocabulary.

Import Sync.

(** The loop state after a section that is counted as skipped. *)
Definition count_skipped (st : loop) : loop :=
  {| loop_world := loop_world st;
     sync_state := sync_state st;
     loop_stats := {| new := new (loop_stats st);
                      skipped := S (skipped (loop_stats st));
                      updated := updated (loop_stats st) |} |}.

(** The point stored for a new section, and the loop state after it. *)
Definition imported_point (filepath : string) (w : world) (s : section) : point :=
  {| point_id := pretty (uuids w);
     point_content := stored_content s;
     point_memory_type := "semantic";
     point_agent_id := Client.DEFAULT_AGENT_ID;
     point_importance := 0.7%float;
     point_initial_importance := 0.7%float;
     point_timestamp := pretty (S (clock w));
     point_entities := stored_entities s;
     point_session_id := None;
     point_metadata := [("source", filepath); ("synced_at", pretty (clock w))];
     point_importance_history := [0.7%float] |}.

Definition count_new (filepath : string) (st : loop) (s : section) : loop :=
  let w := loop_world st in
  {| loop_world := {| points := points w ++ [imported_point filepath w s];
                      files := files w;
                      clock := S (S (S (clock w)));
                      uuids := S (uuids w) |};
     sync_state := <[identity s := {| entry_header := header s;
                                      entry_synced_at := pretty (S (S (clock w))) |}]>
                     (sync_state st);
     loop_stats := {| new := S (new (loop_stats st));
                      skipped := skipped (loop_stats st);
                      updated := updated (loop_stats st) |} |}.

(** The content hashes of the sections that pass the length test. *)
Definition identities (sections : list section) : list string :=
  map identity (List.filter qualifies sections).

Definition run (filepath : string) (sections : list section) (st : loop) : loop :=
  fold_left (import_section filepath) sections st.

End ImportVocabulary.

(** ** Export *)

Section ExportVocabulary.

Import Sync.

Definition mem_hash (mem : memory) : string := content_hash (content mem).

Definition is_episodic (mem : memory) : bool := String.eqb (memory_type mem) "episodic".

(** The records one filtering loop appends, given the hashes seen before
    it starts: the first record of every hash not yet seen. *)
Fixpoint first_new (seen_hashes : gset string) (l : list memory) : list memory :=
  match l with
  | [] => []
  | mem :: l' =>
      if decide (mem_hash mem ∈ seen_hashes) then first_new seen_hashes l'
      else mem :: first_new ({[mem_hash mem]} ∪ seen_hashes) l'
  end.

End ExportVocabulary.

(** ** Documents whose stored content meets the ledger key *)

(** A family of documents for the counting argument below: the header
    ["x: x: ... x"] over a one-line body ["x: ... x: yyy...y"]. *)
Module Family.

Fixpoint pre (k : nat) : string :=
  match k with
  | O => ""
  | S k' => "x: " +:+ pre k'
  end.

Definition base : string := "yyyyyyyyyyyyyyyyyyyyyyyyyyyyyy".

Definition text (i : nat) : string := pre i +:+ base.

Definition hdr (k : nat) : string := pre k +:+ "x".

Definition doc (k i : nat) : string := "## " +:+ hdr k +:+ String Py.LF (text i).

Definition all_ascii : list ascii := map ascii_of_nat (seq 0 256).

(** Every string of at most [n] characters. *)
Fixpoint strings_upto (n : nat) : list string :=
  match n with
  | O => [""]
  | S n' => "" :: flat_map (fun s => map (fun c => String c s) all_ascii) (strings_upto n')
  end.

Fixpoint has_lf (s : string) : bool :=
  match s with
  | EmptyString => false
  | String c s' => Ascii.eqb c Py.LF || has_lf s'
  end.

End Family.

(** * Vocabulary of the further statements *)

Section KeywordOnlyVocabulary.

Import Hybrid KeywordOnly.

(** The point shares a keyword with the query. *)
Definition overlaps (query_keywords : gset string) (p : scrolled) : bool :=
  Nat.ltb 0 (size (query_keywords ∩ extract_keywords (default "" (payload_content p)))).

End KeywordOnlyVocabulary.

Section ParsingVocabulary.

(** Empty, or starting with a character that is not whitespace. *)
Definition clean_head (s : string) : Prop :=
  match s with
  | EmptyString => True
  | String c _ => Py.is_space c = false
  end.

(** A header as the parser makes it: stripped, on one line. *)
Definition tidy_header (h : string) : Prop :=
  Py.strip h = h /\ Family.has_lf h = false.

End ParsingVocabulary.

Section ImportMoreVocabulary.

Import Sync.

(** A point as the import stores it for a section of the document. *)
Definition imported_from (filepath : string) (sections : list section) (pt : point) : Prop :=
  point_memory_type pt = "semantic"
  /\ point_importance pt = 0.7%float
  /\ point_session_id pt = None
  /\ In ("source", filepath) (point_metadata pt)
  /\ exists s, In s sections /\ qualifies s = true
               /\ point_content pt = stored_content s
               /\ point_entities pt = stored_entities s.

End ImportMoreVocabulary.

Section ClientImportVocabulary.

(** The sections that [import_markdown] stores. *)
Definition long_enough (s : string * string) : bool := Nat.ltb 50 (String.length (snd s)).

Definition client_point (filepath : string) (pt : point) : Prop :=
  point_memory_type pt = "semantic"
  /\ point_importance pt = 0.7%float
  /\ In ("source", filepath) (point_metadata pt).

End ClientImportVocabulary.

Section TranscriptVocabulary.

Import Ingest.

(** A point as [ingest_turn] stores it. *)
Definition turn_point (session_id : option string) (pt : point) : Prop :=
  point_memory_type pt = "episodic"
  /\ point_session_id pt = session_id
  /\ exists role text,
       point_content pt = "[" +:+ role +:+ "] " +:+ text
       /\ 20 <= String.length text
       /\ point_importance pt = calculate_importance text role
       /\ In ("role", role) (point_metadata pt).

(** The counter moves with the store. *)
Definition counted (session_id : option string) (st st' : nat * world) : Prop :=
  exists pts,
    fst st' = fst st + length pts
    /\ points (snd st') = points (snd st) ++ pts
    /\ Forall (turn_point session_id) pts
    /\ files (snd st') = files (snd st).

End TranscriptVocabulary.

Section HashVocabulary.

(** A digit or one of the letters a to f. *)
Definition is_lower_hex (c : ascii) : bool := Py.is_digit c || Py.in_range 97 102 c.

Fixpoint all_chars (P : ascii -> bool) (s : string) : bool :=
  match s with
  | EmptyString => true
  | String c s' => P c && all_chars P s'
  end.

End HashVocabulary.

(** * Properties *)

(** ** Importance Estimator *)

Section Importance.

Import Ingest.

Local Open Scope float_scope.

(** C5. For every text and role the estimator returns a float between 0.5
    and 1.0: it is the base 0.5 plus four increments, each zero or
    positive (0.1 for the role user, 0.2 more for the preference words,
    0.15 for the action words of an assistant, 0.1 for more than 200
    characters), capped at 1.0. *)
Theorem calculate_importance_in_range (text role : string) :
  (0.5 <=? calculate_importance text role) = true
  /\ (calculate_importance text role <=? 1.0) = true
  /\ calculate_importance text role =
      py_min (0.5 + user_bonus role + preference_bonus text role
              + action_bonus text role + length_bonus text) 1.0
  /\ (0 <=? user_bonus role) = true
  /\ (0 <=? preference_bonus text role) = true
  /\ (0 <=? action_bonus text role) = true
  /\ (0 <=? length_bonus text) = true.
Proof.
  unfold calculate_importance, user_bonus, preference_bonus, action_bonus, length_bonus.
  generalize (any_in ["prefer"; "want"; "need"; "important"; "remember"]%string (Py.lower text)).
  generalize (any_in ["created"; "installed"; "configured"; "deployed"]%string (Py.lower text)).
  intros acted preferred.
  destruct (String.eqb role "user"), (String.eqb role "assistant"), acted, preferred,
    (Nat.ltb 200 (String.length text)); vm_compute; repeat split.
Qed.

End Importance.

(** ** Keyword overlap *)

Section KeywordOverlap.

Import Hybrid.

Local Open Scope Q_scope.

Lemma inject_nat_nonneg (n : nat) : 0 <= inject_Z (Z.of_nat n).
Proof. unfold Qle; simpl; lia. Qed.

Lemma inject_nat_le (m n : nat) : (m <= n)%nat -> inject_Z (Z.of_nat m) <= inject_Z (Z.of_nat n).
Proof. intros H. rewrite <- Zle_Qle. lia. Qed.

Lemma inject_nat_pos (n : nat) : (0 < n)%nat -> 0 < inject_Z (Z.of_nat n).
Proof. intros H. unfold Qlt; simpl; lia. Qed.

Lemma keyword_score_bounds (qk ck : gset string) :
  0 <= keyword_score qk ck /\ keyword_score qk ck <= 1.
Proof.
  unfold keyword_score. destruct (decide (qk = ∅)) as [->|Hne].
  - split; discriminate.
  - assert (Hpos : (0 < size qk)%nat).
    { destruct (size qk) eqn:E; [|lia]. apply size_empty_inv in E.
      exfalso. apply Hne. apply leibniz_equiv. exact E. }
    assert (Hle : (size (qk ∩ ck) <= size qk)%nat).
    { apply subseteq_size, intersection_subseteq_l. }
    split.
    + apply Qle_shift_div_l; [now apply inject_nat_pos|].
      rewrite Qmult_0_l. apply inject_nat_nonneg.
    + apply Qle_shift_div_r; [now apply inject_nat_pos|].
      rewrite Qmult_1_l. now apply inject_nat_le.
Qed.

(** C4. For every query text and every candidate, the keyword score that
    the re-ranking loop computes lies between 0 and 1, and it is 0 when the
    query has no keyword. *)
Theorem keyword_score_in_unit_interval
    (query : string) (dense_weight keyword_weight : Q) (r : candidate) :
  let ks := keyword_score_of
              (score_candidate (extract_keywords query) dense_weight keyword_weight r) in
  0 <= ks /\ ks <= 1 /\ (extract_keywords query = ∅ -> ks = 0).
Proof.
  simpl. split; [|split].
  - apply keyword_score_bounds.
  - apply keyword_score_bounds.
  - intros E. unfold keyword_score. rewrite E. reflexivity.
Qed.

End KeywordOverlap.

(** ** Conversation ingestion *)

Section Ingestion.

Lemma extract_entities_at_most_10 (text : string) :
  length (Ingest.extract_entities text) <= 10.
Proof. unfold Ingest.extract_entities. rewrite length_take. lia. Qed.

(** C8. Content shorter than 20 characters is rejected: [ingest_turn]
    returns [None] and the world, hence the store, is untouched.  For
    content of 20 characters or more exactly one record is stored, its id
    is returned, and its entity list is the result of [extract_entities],
    which has at most 10 elements. *)
Theorem ingest_turn_floor (content role : string) (session_id : option string) (w : world) :
  (String.length content < 20 ->
     Ingest.ingest_turn content role session_id w = (None, w))
  /\ (20 <= String.length content ->
      exists memory_id pt w',
        Ingest.ingest_turn content role session_id w = (Some memory_id, w')
        /\ points w' = points w ++ [pt]
        /\ point_id pt = memory_id
        /\ point_memory_type pt = "episodic"
        /\ point_importance pt = Ingest.calculate_importance content role
        /\ point_entities pt = Ingest.extract_entities content
        /\ length (point_entities pt) <= 10).
Proof.
  unfold Ingest.ingest_turn. split; intros H.
  - apply Nat.ltb_lt in H. rewrite H. reflexivity.
  - apply Nat.ltb_ge in H. rewrite H. simpl.
    do 3 eexists. split; [reflexivity|]. simpl.
    repeat split. apply extract_entities_at_most_10.
Qed.

End Ingestion.

(** ** Hybrid ranking *)

Section StableSort.

Import Hybrid.

Local Open Scope Q_scope.

Context {A : Type} (key sec : A -> Q).

Local Abbreviation ahead := (ahead key sec).
Local Abbreviation same_key := (same_key key).

Lemma ahead_of_le (x z : A) : key z <= key x -> sec z <= sec x -> ahead x z.
Proof.
  intros Hk Hs. destruct (Qle_lt_or_eq _ _ Hk) as [Hlt|Heq].
  - now left.
  - right. split; [symmetry; exact Heq | exact Hs].
Qed.

Lemma ahead_key_le (x z : A) : ahead x z -> key z <= key x.
Proof.
  intros [Hlt|[Heq _]]; [now apply Qlt_le_weak|].
  rewrite Heq. apply Qle_refl.
Qed.

Lemma insert_desc_perm (x : A) (l : list A) :
  Permutation (insert_desc key x l) (x :: l).
Proof.
  induction l as [|y l IH]; simpl; [reflexivity|].
  destruct (Qle_bool (key y) (key x)); [reflexivity|].
  rewrite IH. apply perm_swap.
Qed.

Lemma sort_desc_perm (l : list A) : Permutation (sort_desc key l) l.
Proof.
  induction l as [|x l IH]; simpl; [reflexivity|].
  rewrite insert_desc_perm. now constructor.
Qed.

Lemma insert_desc_ahead (x : A) (l : list A) :
  StronglySorted ahead l ->
  Forall (fun z => sec z <= sec x) l ->
  StronglySorted ahead (insert_desc key x l).
Proof.
  induction l as [|y l IH]; simpl; intros Hs Hsec.
  - repeat constructor.
  - apply StronglySorted_inv in Hs as [Hs Hy].
    apply Forall_cons in Hsec as [Hsy Hsl].
    destruct (Qle_bool (key y) (key x)) eqn:E.
    + apply Qle_bool_iff in E.
      constructor; [constructor; assumption|].
      constructor; [now apply ahead_of_le|].
      rewrite Forall_forall in Hy, Hsl |- *. intros z Hz.
      apply ahead_of_le; [|now apply Hsl].
      eapply Qle_trans; [apply ahead_key_le, Hy, Hz | exact E].
    + assert (Hlt : key x < key y).
      { apply Qnot_le_lt. intros Hle. apply Qle_bool_iff in Hle. congruence. }
      constructor; [now apply IH|].
      rewrite (insert_desc_perm x l). constructor; [now left | exact Hy].
Qed.

(** Sorting a list that descends in [sec] gives a list that descends in
    [key] and, where keys tie, in [sec]. *)
Lemma sort_desc_ahead (l : list A) :
  StronglySorted (fun a b => sec b <= sec a) l ->
  StronglySorted ahead (sort_desc key l).
Proof.
  induction l as [|x l IH]; simpl; intros Hs.
  - constructor.
  - apply StronglySorted_inv in Hs as [Hs Hx].
    apply insert_desc_ahead; [now apply IH|].
    now rewrite (sort_desc_perm l).
Qed.

(** Stability: insertion moves [x] past larger keys only. *)
Lemma insert_desc_stable (c : Q) (x : A) (l : list A) :
  List.filter (same_key c) (insert_desc key x l) = List.filter (same_key c) (x :: l).
Proof.
  induction l as [|y l IH]; [reflexivity|].
  cbn [insert_desc]. destruct (Qle_bool (key y) (key x)) eqn:E; [reflexivity|].
  cbn [List.filter] in *. rewrite IH.
  destruct (same_key c x) eqn:Ex, (same_key c y) eqn:Ey; try reflexivity.
  exfalso. unfold same_key in Ex, Ey.
  apply Qeq_bool_iff in Ex, Ey.
  assert (Hle : key y <= key x) by (rewrite Ex, Ey; apply Qle_refl).
  apply Qle_bool_iff in Hle. congruence.
Qed.

Lemma sort_desc_stable (c : Q) (l : list A) :
  List.filter (same_key c) (sort_desc key l) = List.filter (same_key c) l.
Proof.
  induction l as [|x l IH]; [reflexivity|].
  cbn [sort_desc foldr]. fold (sort_desc key l).
  rewrite insert_desc_stable. cbn [List.filter]. now rewrite IH.
Qed.

End StableSort.

Section Ranking.

Import Hybrid.

Local Open Scope Q_scope.

Lemma slice_to_nonneg {A} (k : Z) (l : list A) :
  (0 <= k)%Z -> Py.slice_to k l = firstn (Z.to_nat k) l.
Proof.
  intros H. unfold Py.slice_to.
  destruct (Z.leb_spec 0 k); [reflexivity | lia].
Qed.

Lemma scored_dense_ranked (qk : gset string) (dw kw : Q) (l : list candidate) :
  dense_ranked l ->
  StronglySorted (fun a b => dense_score b <= dense_score a)
    (map (score_candidate qk dw kw) l).
Proof.
  induction 1 as [|x l Hs IH Hx]; simpl; constructor; [exact IH|].
  rewrite Forall_map. exact Hx.
Qed.


End Ranking.

(** ** Import: one section *)

Section ImportStep.

Import Sync.

Lemma qualifies_false (s : section) :
  qualifies s = false <-> String.length (Py.strip (body s)) < 30.
Proof.
  unfold qualifies. rewrite negb_false_iff. apply Nat.ltb_lt.
Qed.

Lemma qualifies_true (s : section) :
  qualifies s = true <-> 30 <= String.length (Py.strip (body s)).
Proof.
  unfold qualifies. rewrite negb_true_iff. apply Nat.ltb_ge.
Qed.

Lemma import_section_short (filepath : string) (st : loop) (s : section) :
  qualifies s = false -> import_section filepath st s = st.
Proof.
  intros H. apply qualifies_false, Nat.ltb_lt in H.
  unfold import_section. now rewrite H.
Qed.

Lemma import_section_known (filepath : string) (st : loop) (s : section) :
  qualifies s = true -> is_Some (sync_state st !! identity s) ->
  import_section filepath st s = count_skipped st.
Proof.
  intros H Hin. apply qualifies_true, Nat.ltb_ge in H.
  unfold import_section. rewrite H. fold (identity s).
  destruct (decide (is_Some (sync_state st !! identity s))); [reflexivity | contradiction].
Qed.

Lemma import_section_new (filepath : string) (st : loop) (s : section) :
  qualifies s = true -> sync_state st !! identity s = None ->
  import_section filepath st s = count_new filepath st s.
Proof.
  intros H Hout. apply qualifies_true, Nat.ltb_ge in H.
  unfold import_section. rewrite H. fold (identity s).
  destruct (decide (is_Some (sync_state st !! identity s))) as [Hin|_].
  - rewrite Hout in Hin. now destruct Hin.
  - reflexivity.
Qed.

(** C6. Take any section [s] of the parsed document and the loop state
    [st] in which the import reaches it.  If the stripped body of [s] has
    fewer than 30 characters the iteration changes nothing: no record, no
    count.  If it has 30 or more and its content hash is not a key of the
    ledger, exactly one point is added to the store, of type "semantic",
    importance 0.7, with the lower-cased, hyphenated header as its only
    entity when the header is not empty and no entity otherwise; the hash
    becomes a ledger key and only the count of new sections grows. *)
Theorem import_section_outcome
    (filepath content : string) (d : ledger) (w : world)
    (before : list section) (s : section) (after : list section) :
  parse_sections content = before ++ s :: after ->
  let text := Py.strip (body s) in
  let st := import_pass filepath before d w in
  let st' := import_pass filepath (before ++ [s]) d w in
  (String.length text < 30 -> st' = st)
  /\ (30 <= String.length text -> sync_state st !! content_hash text = None ->
      exists pt,
        points (loop_world st') = points (loop_world st) ++ [pt]
        /\ point_memory_type pt = "semantic"
        /\ point_importance pt = 0.7%float
        /\ point_entities pt =
             (if Py.truthy (header s)
              then [Py.replace_space_hyphen (Py.lower (header s))] else [])
        /\ (exists e, sync_state st' = <[content_hash text := e]> (sync_state st)
                      /\ entry_header e = header s)
        /\ new (loop_stats st') = S (new (loop_stats st))
        /\ skipped (loop_stats st') = skipped (loop_stats st)).
Proof.
  intros _ text st st'.
  assert (Hstep : st' = import_section filepath st s).
  { unfold st', st, import_pass. now rewrite fold_left_app. }
  split.
  - intros Hshort. rewrite Hstep. now apply import_section_short, qualifies_false.
  - intros Hlong Hfresh. rewrite Hstep.
    rewrite import_section_new; [|now apply qualifies_true | exact Hfresh].
    eexists. split; [reflexivity|]. simpl. repeat split.
    eexists. split; reflexivity.
Qed.

End ImportStep.

(** ** Import: the whole pass *)

Section ImportPass.

Import Sync.

Implicit Types (st : loop) (sections : list section) (d : ledger) (w : world).

Lemma run_cons filepath s sections st :
  run filepath (s :: sections) st = run filepath sections (import_section filepath st s).
Proof. reflexivity. Qed.

Lemma import_section_cases filepath st s :
  (qualifies s = false /\ import_section filepath st s = st)
  \/ (qualifies s = true /\ is_Some (sync_state st !! identity s)
      /\ import_section filepath st s = count_skipped st)
  \/ (qualifies s = true /\ sync_state st !! identity s = None
      /\ import_section filepath st s = count_new filepath st s).
Proof.
  destruct (qualifies s) eqn:Hq.
  - destruct (sync_state st !! identity s) eqn:Hl.
    + right; left. repeat split; [eauto|]. apply import_section_known; [exact Hq|].
      rewrite Hl. eauto.
    + right; right. repeat split. now apply import_section_new.
  - left. split; [reflexivity|]. now apply import_section_short.
Qed.

(** A pass over sections whose hashes are all ledger keys stores nothing
    and leaves the ledger as it is; every qualifying section is skipped. *)
Lemma run_all_known filepath sections st :
  (forall h, h ∈ identities sections -> is_Some (sync_state st !! h)) ->
  run filepath sections st =
    {| loop_world := loop_world st;
       sync_state := sync_state st;
       loop_stats := {| new := new (loop_stats st);
                        skipped := skipped (loop_stats st) + length (identities sections);
                        updated := updated (loop_stats st) |} |}.
Proof.
  revert st. induction sections as [|s sections IH]; intros st Hknown.
  - simpl. destruct st as [w d [n k u]]. simpl. now rewrite Nat.add_0_r.
  - rewrite run_cons. unfold identities in *. cbn [List.filter] in *.
    destruct (qualifies s) eqn:Hq.
    + rewrite import_section_known; [|exact Hq|apply Hknown; simpl; left].
      rewrite IH.
      * simpl. do 2 f_equal. lia.
      * intros h Hh. simpl. apply Hknown. simpl. now right.
    + rewrite import_section_short by exact Hq. now apply IH.
Qed.

(** The keys of the ledger after a pass: the old ones and the hashes of
    the qualifying sections. *)
Lemma run_dom filepath sections st :
  dom (sync_state (run filepath sections st))
  = dom (sync_state st) ∪ list_to_set (identities sections).
Proof.
  revert st. induction sections as [|s sections IH]; intros st.
  - simpl. set_solver.
  - rewrite run_cons, IH. unfold identities. cbn [List.filter].
    destruct (import_section_cases filepath st s) as [[Hq ->]|[(Hq & Hin & ->)|(Hq & Hout & ->)]];
      rewrite Hq; simpl.
    + reflexivity.
    + apply elem_of_dom in Hin. set_solver.
    + rewrite dom_insert_L. set_solver.
Qed.

(** What a pass does to the counts, the store and the files. *)
Lemma run_counts filepath sections st :
  let st' := run filepath sections st in
  new (loop_stats st') =
    new (loop_stats st)
    + size (list_to_set (identities sections) ∖ dom (sync_state st) : gset string)
  /\ new (loop_stats st') + skipped (loop_stats st') =
     new (loop_stats st) + skipped (loop_stats st) + length (identities sections)
  /\ updated (loop_stats st') = updated (loop_stats st)
  /\ files (loop_world st') = files (loop_world st)
  /\ exists pts, points (loop_world st') = points (loop_world st) ++ pts
                 /\ new (loop_stats st') = new (loop_stats st) + length pts.
Proof.
  revert st. induction sections as [|s sections IH]; intros st; cbn zeta.
  - simpl. rewrite difference_disjoint_L, size_empty by set_solver.
    repeat split; try lia. exists []. rewrite app_nil_r. split; [reflexivity | simpl; lia].
  - rewrite run_cons.
    specialize (IH (import_section filepath st s)). cbn zeta in IH.
    destruct IH as (Hn & Hs & Hu & Hf & pts & Hp & Hl).
    unfold identities in *. cbn [List.filter].
    destruct (import_section_cases filepath st s) as [[Hq E]|[(Hq & Hin & E)|(Hq & Hout & E)]];
      rewrite E in *; rewrite Hq; simpl in *.
    + repeat split; try assumption. now exists pts.
    + apply elem_of_dom in Hin.
      replace (({[identity s]} ∪ list_to_set (map identity (List.filter qualifies sections)))
                 ∖ dom (sync_state st))
        with (list_to_set (map identity (List.filter qualifies sections))
                ∖ dom (sync_state st) : gset string) by set_solver.
      repeat split; try assumption; try lia. now exists pts.
    + apply not_elem_of_dom in Hout.
      rewrite dom_insert_L in Hn.
      replace (({[identity s]} ∪ list_to_set (map identity (List.filter qualifies sections)))
                 ∖ dom (sync_state st))
        with ({[identity s]} ∪
              (list_to_set (map identity (List.filter qualifies sections))
                 ∖ ({[identity s]} ∪ dom (sync_state st))) : gset string)
        by (apply set_eq; intros x; destruct (decide (x = identity s)); set_solver).
      rewrite size_union, size_singleton by set_solver.
      repeat split; try assumption; try lia.
      exists (imported_point filepath (loop_world st) s :: pts).
      rewrite Hp, <- app_assoc. split; [reflexivity | simpl; lia].
Qed.

End ImportPass.

(** ** Import: the ledger file *)

Section Ledger.

Import Sync.

Lemma given_truthy (p : string) : Py.truthy p = true -> given (Some p) = Some p.
Proof. intros H. unfold given. now rewrite H. Qed.

Lemma import_pass_run filepath sections d w :
  import_pass filepath sections d w =
    run filepath sections {| loop_world := w; sync_state := d; loop_stats := fresh_stats |}.
Proof. reflexivity. Qed.

(** A run that returns has written the ledger it ended with, and the keys
    of that ledger include the hash of every qualifying section. *)
Lemma sync_persists filepath content p w s1 w1 :
  Py.truthy p = true ->
  sync_from_markdown filepath content (Some p) w = (Return s1, w1) ->
  exists d1, files w1 !! p = Some (Json d1)
             /\ forall h, h ∈ identities (parse_sections content) -> is_Some (d1 !! h).
Proof.
  intros Hp. unfold sync_from_markdown.
  destruct (load_sync_state (Some p) w) as [d|e]; [|discriminate].
  cbn zeta. intros H. injection H as _ Hw. subst w1.
  unfold save_sync_state. rewrite (given_truthy p Hp). simpl.
  eexists. split; [apply lookup_insert_eq|].
  intros h Hh. apply elem_of_dom. rewrite import_pass_run, run_dom.
  apply elem_of_union_r, elem_of_list_to_set, Hh.
Qed.

(** C1. Let a first run of the import with a ledger path return, and take
    any world whose ledger file is the one that run wrote.  A second run
    on the same document text then returns new = 0 and skipped = the
    number of qualifying sections, and leaves the world exactly as it
    found it: no point is stored and the ledger file, hence its key set,
    is the same. *)
Theorem import_idempotent
    (filepath content p : string) (w : world) (s1 : stats) (w1 w' : world) :
  Py.truthy p = true ->
  sync_from_markdown filepath content (Some p) w = (Return s1, w1) ->
  files w' !! p = files w1 !! p ->
  sync_from_markdown filepath content (Some p) w' =
    (Return {| new := 0;
               skipped := length (List.filter qualifies (parse_sections content));
               updated := 0 |},
     w').
Proof.
  intros Hp Hfirst Hfile.
  destruct (sync_persists _ _ _ _ _ _ Hp Hfirst) as (d1 & Hd1 & Hkeys).
  rewrite Hd1 in Hfile.
  unfold sync_from_markdown, load_sync_state.
  rewrite (given_truthy p Hp), Hfile.
  rewrite import_pass_run, run_all_known by exact Hkeys.
  unfold save_sync_state. rewrite (given_truthy p Hp). simpl.
  unfold identities. rewrite length_map.
  rewrite insert_id by exact Hfile.
  now destruct w'.
Qed.

(** C2, as the code has it.  With a ledger path given: a missing file is
    an empty ledger and the run returns; a file that holds a JSON object
    is the ledger; a file that is not JSON makes [json.load] raise, the
    error reaches the caller, and nothing is stored or written. *)
Theorem ledger_file_cases (filepath content p : string) (w : world) :
  Py.truthy p = true ->
  match files w !! p with
  | None =>
      let st := import_pass filepath (parse_sections content) ∅ w in
      sync_from_markdown filepath content (Some p) w =
        (Return (loop_stats st),
         save_sync_state (Some p) (sync_state st) (loop_world st))
  | Some (Json d) =>
      let st := import_pass filepath (parse_sections content) d w in
      sync_from_markdown filepath content (Some p) w =
        (Return (loop_stats st),
         save_sync_state (Some p) (sync_state st) (loop_world st))
  | Some (Text _) =>
      sync_from_markdown filepath content (Some p) w = (Raise JSONDecodeError, w)
  end.
Proof.
  intros Hp. unfold sync_from_markdown, load_sync_state.
  rewrite (given_truthy p Hp).
  destruct (files w !! p) as [[d|raw]|]; reflexivity.
Qed.

(** C9, as the code has it.  Without a ledger path no file is read or
    written and the run cannot fail.  Every run starts from the empty
    ledger, so every run over the same text returns the same counts:
    [new] is the number of distinct content hashes among the qualifying
    sections, one point is stored for each, and [skipped] counts the
    qualifying sections that repeat the hash of an earlier one.  When the
    hashes are pairwise distinct, every qualifying section is stored anew
    and [skipped] is 0. *)
Theorem sync_without_ledger (filepath content : string) (w : world) :
  exists (s : stats) (w' : world) (pts : list point),
    sync_from_markdown filepath content None w = (Return s, w')
    /\ files w' = files w
    /\ points w' = points w ++ pts
    /\ length pts = new s
    /\ new s = size (list_to_set (identities (parse_sections content)) : gset string)
    /\ new s + skipped s = length (List.filter qualifies (parse_sections content))
    /\ (forall w2 : world, fst (sync_from_markdown filepath content None w2) = Return s)
    /\ (NoDup (identities (parse_sections content)) ->
        new s = length (List.filter qualifies (parse_sections content))
        /\ skipped s = 0).
Proof.
  assert (Hcounts : forall v : world,
    let st := import_pass filepath (parse_sections content) ∅ v in
    new (loop_stats st) = size (list_to_set (identities (parse_sections content)) : gset string)
    /\ skipped (loop_stats st) =
        length (List.filter qualifies (parse_sections content))
        - size (list_to_set (identities (parse_sections content)) : gset string)
    /\ updated (loop_stats st) = 0
    /\ new (loop_stats st) + skipped (loop_stats st) =
        length (List.filter qualifies (parse_sections content))).
  { intros v st. unfold st. rewrite import_pass_run.
    destruct (run_counts filepath (parse_sections content)
                {| loop_world := v; sync_state := ∅; loop_stats := fresh_stats |})
      as (Hn & Hs & Hu & _). simpl in Hn, Hs, Hu.
    rewrite dom_empty_L, difference_empty_L in Hn.
    unfold identities in Hs at 1. rewrite length_map in Hs.
    repeat split; try lia. }
  unfold sync_from_markdown. simpl.
  destruct (run_counts filepath (parse_sections content)
              {| loop_world := w; sync_state := ∅; loop_stats := fresh_stats |})
    as (_ & _ & _ & Hf & pts & Hp & Hl). simpl in Hf, Hp, Hl.
  rewrite <- import_pass_run in Hf, Hp, Hl.
  destruct (Hcounts w) as (Hn & Hs & Hu & Hsum).
  do 2 eexists. exists pts.
  split; [reflexivity|]. split; [exact Hf|]. split; [exact Hp|].
  split; [lia|]. split; [exact Hn|]. split; [exact Hsum|]. split.
  - intros w2. simpl. destruct (Hcounts w2) as (Hn2 & Hs2 & Hu2 & _).
    f_equal. destruct (loop_stats (import_pass _ _ _ w2)), (loop_stats (import_pass _ _ _ w)).
    simpl in *. congruence.
  - intros Hnd. rewrite (size_list_to_set _ Hnd) in Hn.
    unfold identities in Hn. rewrite length_map in Hn. lia.
Qed.

End Ledger.

(** ** Export: deduplication by content hash *)

Section ExportDedup.

Import Sync.

Lemma keep_first_fold (l : list memory) (seen_hashes : gset string) (kept : list memory) :
  fold_left keep_first l (seen_hashes, kept)
  = (list_to_set (map mem_hash l) ∪ seen_hashes, kept ++ first_new seen_hashes l).
Proof.
  revert seen_hashes kept. induction l as [|mem l IH]; intros seen_hashes kept; simpl.
  - rewrite app_nil_r. f_equal. set_solver.
  - fold (mem_hash mem). destruct (decide (mem_hash mem ∈ seen_hashes)) as [Hin|Hout].
    + rewrite IH. f_equal. set_solver.
    + rewrite IH, <- app_assoc. f_equal. set_solver.
Qed.

Lemma keep_episodic_fold (l : list memory) (st : gset string * list memory) :
  fold_left keep_episodic l st = fold_left keep_first (List.filter is_episodic l) st.
Proof.
  revert st. induction l as [|mem l IH]; intros st; simpl; [reflexivity|].
  unfold keep_episodic at 2. fold (is_episodic mem).
  destruct (is_episodic mem); simpl; apply IH.
Qed.

Lemma organize_first_new (semantic episodic : list memory) :
  let seen1 : gset string := list_to_set (map mem_hash semantic) in
  semantic_knowledge (organize semantic episodic) = first_new ∅ semantic
  /\ recent_conversations (organize semantic episodic)
     = first_new seen1 (List.filter is_episodic episodic).
Proof.
  unfold organize. rewrite keep_first_fold, keep_episodic_fold, keep_first_fold.
  simpl. split; [reflexivity|]. f_equal. set_solver.
Qed.

Lemma first_new_fresh seen_hashes l mem :
  In mem (first_new seen_hashes l) -> In mem l /\ mem_hash mem ∉ seen_hashes.
Proof.
  revert seen_hashes. induction l as [|x l IH]; intros seen_hashes; simpl; [tauto|].
  destruct (decide (mem_hash x ∈ seen_hashes)) as [Hin|Hout].
  - intros H. apply IH in H. tauto.
  - intros [<-|H]; [tauto|]. apply IH in H. split; [tauto|]. set_solver.
Qed.

Lemma first_new_NoDup seen_hashes l : NoDup (map mem_hash (first_new seen_hashes l)).
Proof.
  revert seen_hashes. induction l as [|x l IH]; intros seen_hashes; simpl; [constructor|].
  destruct (decide (mem_hash x ∈ seen_hashes)) as [Hin|Hout]; [apply IH|].
  simpl. apply NoDup_cons. split; [|apply IH].
  rewrite list_elem_of_In, in_map_iff. intros (y & Hy & Hin).
  apply first_new_fresh in Hin. set_solver.
Qed.

Lemma first_new_sublist seen_hashes l : sublist (first_new seen_hashes l) l.
Proof.
  revert seen_hashes. induction l as [|x l IH]; intros seen_hashes; simpl; [constructor|].
  destruct (decide (mem_hash x ∈ seen_hashes)); [apply sublist_cons | apply sublist_skip]; apply IH.
Qed.

(** The first record of a hash that was not seen before is kept. *)
Lemma first_new_first seen_hashes l1 mem l2 :
  mem_hash mem ∉ seen_hashes -> ~ In (mem_hash mem) (map mem_hash l1) ->
  In mem (first_new seen_hashes (l1 ++ mem :: l2)).
Proof.
  revert seen_hashes. induction l1 as [|x l1 IH]; intros seen_hashes Hout Hfirst; simpl.
  - destruct (decide (mem_hash mem ∈ seen_hashes)); [contradiction | now left].
  - simpl in Hfirst.
    destruct (decide (mem_hash x ∈ seen_hashes)).
    + apply IH; tauto.
    + right. apply IH; [set_solver | tauto].
Qed.

(** Every hash of the list is seen before or kept. *)
Lemma first_new_covers seen_hashes l mem :
  In mem l -> mem_hash mem ∉ seen_hashes ->
  In (mem_hash mem) (map mem_hash (first_new seen_hashes l)).
Proof.
  revert seen_hashes. induction l as [|x l IH]; intros seen_hashes; simpl; [tauto|].
  intros [->|Hin] Hout.
  - destruct (decide (mem_hash mem ∈ seen_hashes)); [contradiction | now left].
  - destruct (decide (mem_hash x ∈ seen_hashes)); [now apply IH|].
    simpl. destruct (decide (mem_hash mem = mem_hash x)) as [E|Hne]; [now left|].
    right. apply IH; [exact Hin | set_solver].
Qed.


End ExportDedup.

(** ** The stored content and the ledger key *)

Section Strings.

(** stdpp keeps [+:+] folded under [simpl]; these are its two equations. *)
Lemma append_nil_l (b : string) : "" +:+ b = b.
Proof. reflexivity. Qed.

Lemma append_cons (x : ascii) (a b : string) : String x a +:+ b = String x (a +:+ b).
Proof. reflexivity. Qed.

Lemma append_assoc (a b c : string) : (a +:+ b) +:+ c = a +:+ (b +:+ c).
Proof.
  induction a as [|x a IH]; [reflexivity|].
  rewrite !append_cons. now f_equal.
Qed.

Lemma append_length (a b : string) :
  String.length (a +:+ b) = String.length a + String.length b.
Proof.
  induction a as [|x a IH]; [reflexivity|].
  rewrite append_cons. simpl. now rewrite IH.
Qed.

Lemma str_take_length (n : nat) (s : string) : String.length (Py.str_take n s) <= n.
Proof.
  revert s. induction n as [|n IH]; intros [|c s]; simpl; try lia.
  specialize (IH s). lia.
Qed.

Lemma rstrip_append (a b : string) :
  Py.rstrip b <> "" -> Py.rstrip (a +:+ b) = a +:+ Py.rstrip b.
Proof.
  intros Hb. induction a as [|x a IH]; [reflexivity|].
  rewrite !append_cons. simpl. rewrite IH.
  destruct (a +:+ Py.rstrip b) eqn:E; [|reflexivity].
  exfalso. destruct a; [now rewrite append_nil_l in E | now rewrite append_cons in E].
Qed.

Lemma has_lf_append (a b : string) :
  Family.has_lf (a +:+ b) = Family.has_lf a || Family.has_lf b.
Proof.
  induction a as [|x a IH]; [reflexivity|].
  rewrite append_cons. simpl. rewrite IH. now rewrite orb_assoc.
Qed.

Lemma split_lines_one (a : string) : Family.has_lf a = false -> Py.split_lines a = [a].
Proof.
  induction a as [|x a IH]; simpl; [reflexivity|].
  intros H. apply orb_false_iff in H as [Hx Ha]. rewrite Hx, (IH Ha). reflexivity.
Qed.

Lemma split_lines_append (a b : string) :
  Family.has_lf a = false ->
  Py.split_lines (a +:+ String Py.LF b) = a :: Py.split_lines b.
Proof.
  induction a as [|x a IH]; intros H.
  - reflexivity.
  - rewrite append_cons. simpl in *.
    apply orb_false_iff in H as [Hx Ha]. rewrite Hx, (IH Ha). reflexivity.
Qed.

End Strings.

Section Collision.

Import Sync Family.

Lemma pre_snoc (k : nat) : pre (S k) = pre k +:+ "x: ".
Proof.
  induction k as [|k IH]; [reflexivity|].
  change (pre (S (S k))) with ("x: " +:+ pre (S k)).
  rewrite IH at 1. change (pre (S k)) with ("x: " +:+ pre k).
  now rewrite append_assoc.
Qed.

Lemma pre_add (a b : nat) : pre (a + b) = pre a +:+ pre b.
Proof.
  induction a as [|a IH]; [reflexivity|].
  change (pre (S a + b)) with ("x: " +:+ pre (a + b)).
  change (pre (S a)) with ("x: " +:+ pre a).
  now rewrite IH, append_assoc.
Qed.

(** A later text is an earlier one behind a header and [": "]. *)
Lemma text_shift (k i : nat) : text (S k + i) = hdr k +:+ ": " +:+ text i.
Proof.
  unfold text, hdr. rewrite pre_add, pre_snoc, !append_assoc. reflexivity.
Qed.

Lemma has_lf_pre (k : nat) : has_lf (pre k) = false.
Proof.
  induction k as [|k IH]; [reflexivity|].
  change (pre (S k)) with ("x: " +:+ pre k). now rewrite has_lf_append, IH.
Qed.

Lemma has_lf_text (i : nat) : has_lf (text i) = false.
Proof. unfold text. now rewrite has_lf_append, has_lf_pre. Qed.

Lemma has_lf_hdr (k : nat) : has_lf (hdr k) = false.
Proof. unfold hdr. now rewrite has_lf_append, has_lf_pre. Qed.

Lemma text_head (i : nat) :
  exists c t, text i = String c t /\ Py.is_space c = false /\ Ascii.eqb "#"%char c = false.
Proof.
  destruct i; [exists "y"%char | exists "x"%char]; eexists; repeat split.
Qed.

Lemma hdr_head (k : nat) : exists t, hdr k = String "x"%char t.
Proof. destruct k; eexists; reflexivity. Qed.

Lemma strip_hdr (k : nat) : Py.strip (hdr k) = hdr k.
Proof.
  unfold Py.strip. destruct (hdr_head k) as [t E].
  assert (Hl : Py.lstrip (hdr k) = hdr k) by (rewrite E; reflexivity).
  rewrite Hl. unfold hdr. now rewrite rstrip_append.
Qed.

Lemma strip_text_line (i : nat) : Py.strip (text i +:+ String Py.LF "") = text i.
Proof.
  unfold Py.strip. destruct (text_head i) as (c & t & E & Hc & _).
  assert (Hl : Py.lstrip (text i +:+ String Py.LF "") = text i +:+ String Py.LF "").
  { rewrite E, append_cons. simpl. now rewrite Hc. }
  rewrite Hl. unfold text. rewrite append_assoc, rstrip_append; [reflexivity | discriminate].
Qed.

Lemma text_length (i : nat) : 30 <= String.length (text i).
Proof. unfold text. rewrite append_length. simpl. lia. Qed.

(** The document [doc k i] has the single section [hdr k] over [text i]. *)
Lemma parse_doc (k i : nat) :
  parse_sections (doc k i)
  = [{| header := hdr k; body := text i +:+ String Py.LF "" |}].
Proof.
  unfold parse_sections, doc.
  rewrite <- append_assoc, split_lines_append
    by (rewrite has_lf_append, has_lf_hdr; reflexivity).
  rewrite split_lines_one by apply has_lf_text.
  cbn [fold_left]. unfold parse_line at 2.
  change (Py.startswith "## " ("## " +:+ hdr k)) with true. cbv iota.
  change (Py.str_drop 3 ("## " +:+ hdr k)) with (hdr k).
  change (Py.truthy (Py.strip (body {| header := ""; body := "" |}))) with false. cbv iota.
  rewrite strip_hdr. unfold parse_line.
  destruct (text_head i) as (c & t & E & _ & Hc).
  assert (H2 : Py.startswith "## " (text i) = false)
    by (rewrite E; cbn [Py.startswith]; now rewrite Hc).
  assert (H1 : Py.startswith "# " (text i) = false)
    by (rewrite E; cbn [Py.startswith]; now rewrite Hc).
  rewrite H2, H1. cbn [negb body header]. rewrite append_nil_l, strip_text_line.
  rewrite E. reflexivity.
Qed.

Lemma in_all_ascii (c : ascii) : In c all_ascii.
Proof.
  unfold all_ascii. rewrite <- (ascii_nat_embedding c).
  apply in_map, in_seq. pose proof (nat_ascii_bounded c). lia.
Qed.

Lemma in_strings_upto (n : nat) (s : string) :
  String.length s <= n -> In s (strings_upto n).
Proof.
  revert s. induction n as [|n IH]; intros [|c s] H; cbn [strings_upto].
  - now left.
  - simpl in H. lia.
  - now left.
  - right. apply in_flat_map. exists s. split.
    + apply IH. simpl in H. lia.
    + apply in_map_iff. exists c. split; [reflexivity | apply in_all_ascii].
Qed.

(** A function from the naturals into a finite list repeats a value. *)
Lemma repeats_in_finite (f : nat -> string) (L : list string) :
  (forall i, In (f i) L) -> ~ (forall i j, i < j -> f i <> f j).
Proof.
  intros Hin Hinj.
  assert (Hnd : forall n a, List.NoDup (map f (seq a n))).
  { induction n as [|n IH]; intros a; cbn [seq map]; constructor; [|apply IH].
    intros Hdup. apply in_map_iff in Hdup as (j & E & Hj).
    apply in_seq in Hj. apply (Hinj a j); [lia | now symmetry]. }
  specialize (Hnd (S (length L)) 0).
  apply NoDup_incl_length with (l' := L) in Hnd.
  - rewrite length_map, length_seq in Hnd. lia.
  - intros x Hx. apply in_map_iff in Hx as (i & <- & _). apply Hin.
Qed.

Lemma content_hash_in_finite (t : string) : In (content_hash t) (strings_upto 12).
Proof. apply in_strings_upto, str_take_length. Qed.

(** C10, the part that fails.  It is not true that for every imported
    section with a header the content hash of the stored content differs
    from the ledger key: the hash has at most 12 characters, so among the
    texts [text 0], [text 1], ... two have the same hash, and the later one
    is the stored content of a section whose body is the earlier one. *)
Lemma stored_identity_meets_key :
  ~ (forall (filepath content : string) (w : world) (s : section)
            (pt : point) (key : string) (e : entry),
       parse_sections content = [s] ->
       Py.truthy (header s) = true ->
       points (loop_world (import_pass filepath [s] ∅ w)) = points w ++ [pt] ->
       sync_state (import_pass filepath [s] ∅ w) = {[ key := e ]} ->
       content_hash (point_content pt) <> key).
Proof.
  intros Hclaim.
  apply (repeats_in_finite (fun i => content_hash (text i)) (strings_upto 12)).
  { intros i. apply content_hash_in_finite. }
  intros i j Hij Heq.
  set (s := {| header := hdr (j - i - 1); body := text i +:+ String Py.LF "" |}).
  assert (Hh : Py.truthy (header s) = true).
  { simpl. destruct (hdr_head (j - i - 1)) as [t ->]. reflexivity. }
  assert (Hq : qualifies s = true).
  { apply qualifies_true. simpl. rewrite strip_text_line. apply text_length. }
  assert (Hstep : import_pass "" [s] ∅ Sample.w0
                  = count_new "" {| loop_world := Sample.w0; sync_state := ∅;
                                    loop_stats := fresh_stats |} s).
  { unfold import_pass. cbn [fold_left]. now apply import_section_new. }
  apply (Hclaim "" (doc (j - i - 1) i) Sample.w0 s
           (imported_point "" Sample.w0 s) (identity s)
           {| entry_header := header s; entry_synced_at := pretty 2 |}).
  - apply parse_doc.
  - exact Hh.
  - rewrite Hstep. reflexivity.
  - rewrite Hstep. cbn [count_new sync_state]. now rewrite insert_empty.
  - cbn [imported_point point_content]. unfold stored_content, identity.
    rewrite Hh. unfold s. cbn [header body]. rewrite strip_text_line, <- text_shift.
    replace (S (j - i - 1) + i) with j by lia. now symmetry.
Qed.

(** C10, as the code has it.  For a section with a header that the import
    stores, the content of the point is the header, [": "] and the stripped
    body, a string different from the body, while the key added to the
    ledger is the content hash of the stripped body alone.  The content
    hash of the stored content therefore differs from the ledger key
    unless these two different strings have the same hash. *)
Theorem stored_content_and_ledger_key
    (filepath content : string) (d : ledger) (w : world)
    (before : list section) (s : section) (after : list section) :
  parse_sections content = before ++ s :: after ->
  Py.truthy (header s) = true ->
  30 <= String.length (Py.strip (body s)) ->
  sync_state (import_pass filepath before d w) !! content_hash (Py.strip (body s)) = None ->
  let b := Py.strip (body s) in
  let st := import_pass filepath before d w in
  let st' := import_pass filepath (before ++ [s]) d w in
  exists pt e,
    points (loop_world st') = points (loop_world st) ++ [pt]
    /\ point_content pt = header s +:+ ": " +:+ b
    /\ sync_state st' = <[content_hash b := e]> (sync_state st)
    /\ point_content pt <> b
    /\ (content_hash (point_content pt) <> content_hash b
        \/ (header s +:+ ": " +:+ b <> b
            /\ content_hash (header s +:+ ": " +:+ b) = content_hash b)).
Proof.
  intros _ Hh Hlong Hfresh b st st'.
  assert (Hstep : st' = count_new filepath st s).
  { unfold st', st, import_pass. rewrite fold_left_app. cbn [fold_left].
    apply import_section_new; [now apply qualifies_true | exact Hfresh]. }
  assert (Hne : header s +:+ ": " +:+ b <> b).
  { intros E. apply (f_equal String.length) in E.
    rewrite !append_length in E. simpl in E. lia. }
  do 2 eexists. rewrite Hstep. cbn [count_new loop_world points sync_state].
  split; [reflexivity|]. cbn [imported_point point_content].
  unfold stored_content. rewrite Hh. fold b.
  split; [reflexivity|]. split; [reflexivity|]. split; [exact Hne|].
  destruct (decide (content_hash (header s +:+ ": " +:+ b) = content_hash b)) as [E|E].
  - right. split; [exact Hne | exact E].
  - left. exact E.
Qed.

End Collision.

(** ** The theorems on the sample data *)

Section Samples.

Import Sync Hybrid Sample.

Local Open Scope Q_scope.

(** The digest on the test suite of RFC 1321, and the patterns on texts
    that exercise their boundaries and their backtracking. *)
Example md5_rfc1321 :
  MD5.hexdigest "" = "d41d8cd98f00b204e9800998ecf8427e"
  /\ MD5.hexdigest "abc" = "900150983cd24fb0d6963f7d28e17f72"
  /\ MD5.hexdigest "message digest" = "f96b697d7cb7938d525a2f31aaf161d0".
Proof. vm_compute. repeat split. Qed.

Example findall_originals :
  Re.findall pat_originals "AB-- A-B- -C9 xAB_ 0x1F- Z" = ["AB"; "A-B"; "C9"; "0x1F"].
Proof. vm_compute. reflexivity. Qed.

Example extract_keywords_sample :
  extract_keywords "Error E-42 at 0x1F"
  = list_to_set ["error"; "e"; "42"; "at"; "0x1f"; "Error"; "E-42"; "0x1F"].
Proof. vm_compute. reflexivity. Qed.

Example raw_entities_sample :
  Ingest.raw_entities
    "ping @bob_1 see https://Example.com/x and http://a.b  get_user_name FooBar fooBar my_ docker"
  = ["bob_1"; "Example.com"; "a.b"; "get_user_name"; "FooBar"; "docker"].
Proof. vm_compute. reflexivity. Qed.

(** The end-to-end example of the specification. *)
Example ingest_turn_sample :
  Ingest.calculate_importance "I prefer dark mode for the dashboard" "user"
  = (0.5 + 0.1 + 0.2)%float
  /\ Ingest.extract_entities "I prefer dark mode for the dashboard" = [].
Proof. vm_compute. split; reflexivity. Qed.


(** The example of the specification: with weights 0.7 and 0.3 the hit with
    dense score 0.6 that contains both query keywords comes before the hit
    with dense score 0.9 that contains none. *)
Example hybrid_search_sample :
  map (fun x => (content (payload (hit x)), Qred (keyword_score_of x), Qred (combined_score x)))
    (hybrid_search search "error 0x1F" 2 (7 # 10) (3 # 10))
  = [("parser error 0x1F on startup", 1, 18 # 25);
     ("the dashboard theme is configurable", 0, 63 # 100)].
Proof. vm_compute. reflexivity. Qed.

Local Close Scope Q_scope.

(** What a first run on the sample document returns and stores. *)
Example first_run_sample :
  let '(r, w1) := sync_from_markdown "MEMORY.md" doc (Some "sync.json") w0 in
  r = Return {| new := 1; skipped := 1; updated := 0 |}
  /\ map point_content (points w1)
     = ["Project Notes: The deployment runs on docker with three replicas."]
  /\ (exists d, files w1 !! "sync.json" = Some (Json d)
                /\ dom d = ({[ "542d088ac8bf" ]} : gset string)).
Proof.
  vm_compute. split; [reflexivity|]. split; [reflexivity|].
  eexists. split; [reflexivity|]. reflexivity.
Qed.

Lemma import_idempotent_witness :
  Py.truthy "sync.json" = true
  /\ exists s1 w1,
       sync_from_markdown "MEMORY.md" doc (Some "sync.json") w0 = (Return s1, w1)
       /\ files w1 !! "sync.json" = files w1 !! "sync.json"
       /\ sync_from_markdown "MEMORY.md" doc (Some "sync.json") w1
          = (Return {| new := 0; skipped := 2; updated := 0 |}, w1).
Proof.
  assert (Hp : Py.truthy "sync.json" = true) by reflexivity.
  split; [exact Hp|].
  exists (returned_stats (sync_from_markdown "MEMORY.md" doc (Some "sync.json") w0)),
         (snd (sync_from_markdown "MEMORY.md" doc (Some "sync.json") w0)).
  assert (H1 : sync_from_markdown "MEMORY.md" doc (Some "sync.json") w0
               = (Return (returned_stats (sync_from_markdown "MEMORY.md" doc (Some "sync.json") w0)),
                  snd (sync_from_markdown "MEMORY.md" doc (Some "sync.json") w0)))
    by (vm_compute; reflexivity).
  split; [exact H1|]. split; [reflexivity|].
  exact (import_idempotent "MEMORY.md" doc "sync.json" w0 _ _ _ Hp H1 eq_refl).
Defined.

(** C2, the part that fails: a ledger file that is not JSON is not taken
    for an empty ledger.  The call raises [JSONDecodeError], where the same
    call without the file returns its counts. *)
Lemma corrupt_ledger_raises :
  files w_corrupt !! "sync.json" = Some (Text "{not json")
  /\ fst (sync_from_markdown "MEMORY.md" doc (Some "sync.json") w_corrupt)
     = Raise JSONDecodeError
  /\ fst (sync_from_markdown "MEMORY.md" doc (Some "sync.json") w0)
     = Return {| new := 1; skipped := 1; updated := 0 |}.
Proof. vm_compute. repeat split. Qed.

Lemma ledger_file_cases_witness :
  Py.truthy "sync.json" = true
  /\ sync_from_markdown "MEMORY.md" doc (Some "sync.json") w_corrupt
     = (Raise JSONDecodeError, w_corrupt).
Proof.
  split; [reflexivity|].
  exact (ledger_file_cases "MEMORY.md" doc "sync.json" w_corrupt eq_refl).
Defined.

Lemma import_section_outcome_witness :
  parse_sections doc = [] ++ first_section :: skipn 1 (parse_sections doc)
  /\ exists pt,
       points (loop_world (import_pass "MEMORY.md" ([] ++ [first_section]) ∅ w0))
       = points (loop_world (import_pass "MEMORY.md" [] ∅ w0)) ++ [pt]
       /\ point_memory_type pt = "semantic"
       /\ point_importance pt = 0.7%float
       /\ point_entities pt = ["project-notes"].
Proof.
  assert (Hparse : parse_sections doc = [] ++ first_section :: skipn 1 (parse_sections doc))
    by (vm_compute; reflexivity).
  split; [exact Hparse|].
  destruct (import_section_outcome "MEMORY.md" doc ∅ w0 [] first_section _ Hparse)
    as [_ Hlong].
  destruct Hlong as (pt & Hpts & Hty & Himp & Hent & _).
  - vm_compute. lia.
  - apply lookup_empty.
  - exists pt. repeat split; assumption.
Defined.

(** C9, the part that fails: the sample document has two qualifying
    sections with the same body.  Without a ledger path the run stores one
    record, not two, and counts the second section as skipped. *)
Lemma sync_without_ledger_skips_repeats :
  length (List.filter qualifies (parse_sections doc)) = 2
  /\ exists w',
       sync_from_markdown "MEMORY.md" doc None w0
       = (Return {| new := 1; skipped := 1; updated := 0 |}, w')
       /\ length (points w') = 1.
Proof.
  split; [vm_compute; reflexivity|].
  eexists. split; [vm_compute; reflexivity|]. reflexivity.
Qed.

Lemma stored_content_and_ledger_key_witness :
  parse_sections doc = [] ++ first_section :: skipn 1 (parse_sections doc)
  /\ Py.truthy (header first_section) = true
  /\ 30 <= String.length (Py.strip (body first_section))
  /\ exists pt,
       points (loop_world (import_pass "MEMORY.md" ([] ++ [first_section]) ∅ w0))
       = points (loop_world (import_pass "MEMORY.md" [] ∅ w0)) ++ [pt]
       /\ point_content pt
          = "Project Notes" +:+ ": " +:+ Py.strip (body first_section).
Proof.
  assert (Hparse : parse_sections doc = [] ++ first_section :: skipn 1 (parse_sections doc))
    by (vm_compute; reflexivity).
  assert (Hh : Py.truthy (header first_section) = true) by reflexivity.
  assert (Hl : 30 <= String.length (Py.strip (body first_section))) by (vm_compute; lia).
  assert (Hf : sync_state (import_pass "MEMORY.md" [] ∅ w0)
               !! content_hash (Py.strip (body first_section)) = None)
    by apply lookup_empty.
  split; [exact Hparse|]. split; [exact Hh|]. split; [exact Hl|].
  destruct (stored_content_and_ledger_key "MEMORY.md" doc ∅ w0 [] first_section _
              Hparse Hh Hl Hf) as (pt & e & Hpts & Hc & _).
  exists pt. split; [exact Hpts | exact Hc].
Defined.

(** On the sample section the two hashes do differ. *)
Example sample_hashes_differ :
  content_hash (stored_content first_section) = "5e45d22f0821"
  /\ identity first_section = "542d088ac8bf".
Proof. vm_compute. split; reflexivity. Qed.

End Samples.

(** * Further properties *)

(** ** Keyword overlap, continued *)

Section KeywordOverlapMore.

Import Hybrid.

Local Open Scope Q_scope.

Lemma ratio_one (o n : nat) :
  (0 < n)%nat ->
  (inject_Z (Z.of_nat o) / inject_Z (Z.of_nat n) == 1 <-> o = n).
Proof.
  intros Hn.
  assert (Hnz : ~ inject_Z (Z.of_nat n) == 0).
  { intros E. unfold Qeq in E. simpl in E. lia. }
  split.
  - intros E.
    assert (E' : inject_Z (Z.of_nat o) == inject_Z (Z.of_nat n)).
    { rewrite <- (Qmult_div_r (inject_Z (Z.of_nat o)) (inject_Z (Z.of_nat n)) Hnz).
      rewrite E. apply Qmult_1_r. }
    unfold Qeq in E'. simpl in E'. lia.
  - intros ->. unfold Qdiv. now apply Qmult_inv_r.
Qed.

Lemma ratio_zero (o n : nat) :
  (0 < n)%nat ->
  (inject_Z (Z.of_nat o) / inject_Z (Z.of_nat n) == 0 <-> o = 0%nat).
Proof.
  intros Hn.
  assert (Hnz : ~ inject_Z (Z.of_nat n) == 0).
  { intros E. unfold Qeq in E. simpl in E. lia. }
  split.
  - intros E.
    assert (E' : inject_Z (Z.of_nat o) == inject_Z 0).
    { rewrite <- (Qmult_div_r (inject_Z (Z.of_nat o)) (inject_Z (Z.of_nat n)) Hnz).
      rewrite E. apply Qmult_0_r. }
    unfold Qeq in E'. simpl in E'. lia.
  - intros ->. unfold Qdiv. apply Qmult_0_l.
Qed.

Lemma ratio_le (a b n : nat) :
  (0 < n)%nat -> (a <= b)%nat ->
  inject_Z (Z.of_nat a) / inject_Z (Z.of_nat n)
  <= inject_Z (Z.of_nat b) / inject_Z (Z.of_nat n).
Proof.
  intros Hn Hab. unfold Qdiv. apply Qmult_le_compat_r.
  - now apply inject_nat_le.
  - apply Qinv_le_0_compat, inject_nat_nonneg.
Qed.

Lemma ratio_pos (o n : nat) :
  (0 < o)%nat -> (0 < n)%nat ->
  0 < inject_Z (Z.of_nat o) / inject_Z (Z.of_nat n).
Proof.
  intros Ho Hn. apply Qlt_shift_div_l; [now apply inject_nat_pos|].
  rewrite Qmult_0_l. now apply inject_nat_pos.
Qed.

Lemma size_nonempty (qk : gset string) : qk <> ∅ -> (0 < size qk)%nat.
Proof.
  intros Hne. destruct (size qk) eqn:E; [|lia].
  apply size_empty_inv in E. exfalso. apply Hne. now apply leibniz_equiv.
Qed.

(** X1. When the query has keywords, the keyword score is 1 exactly when
    every query keyword is a keyword of the content, and 0 exactly when
    none is. *)
Theorem keyword_score_extremes (qk ck : gset string) :
  qk <> ∅ ->
  (keyword_score qk ck == 1 <-> qk ⊆ ck)
  /\ (keyword_score qk ck == 0 <-> qk ∩ ck = ∅).
Proof.
  intros Hne. pose proof (size_nonempty qk Hne) as Hpos.
  unfold keyword_score. destruct (decide (qk = ∅)) as [E|_]; [contradiction|].
  cbn zeta. split.
  - rewrite (ratio_one _ _ Hpos). split.
    + intros Hsize.
      assert (Heq : qk ∩ ck = qk).
      { apply set_subseteq_size_eq; [apply intersection_subseteq_l | lia]. }
      set_solver.
    + intros Hsub. f_equal. apply leibniz_equiv. set_solver.
  - rewrite (ratio_zero _ _ Hpos). split.
    + intros Hz. apply leibniz_equiv, size_empty_inv, Hz.
    + intros ->. apply size_empty.
Qed.

(** X2. The keyword score grows with the content: a content that has all
    the keywords of another scores at least as high. *)
Theorem keyword_score_monotone (qk ck ck' : gset string) :
  ck ⊆ ck' -> keyword_score qk ck <= keyword_score qk ck'.
Proof.
  intros Hsub. unfold keyword_score.
  destruct (decide (qk = ∅)) as [E|Hne]; [apply Qle_refl|].
  apply ratio_le; [now apply size_nonempty|].
  apply subseteq_size. set_solver.
Qed.

End KeywordOverlapMore.

(** ** Sorting and slicing, continued *)

Section SortMore.

Import Hybrid.

Local Open Scope Q_scope.

Context {A : Type} (key : A -> Q).

Lemma StronglySorted_weaken (R R' : A -> A -> Prop) (l : list A) :
  (forall a b, R a b -> R' a b) -> StronglySorted R l -> StronglySorted R' l.
Proof.
  intros HR. induction 1 as [|x l Hs IH Hx]; constructor; [exact IH|].
  eapply Forall_impl; [exact Hx | intros y; apply HR].
Qed.

Lemma StronglySorted_firstn (R : A -> A -> Prop) (n : nat) (l : list A) :
  StronglySorted R l -> StronglySorted R (firstn n l).
Proof.
  intros Hs. revert n. induction Hs as [|x l Hs IH Hx]; intros [|n]; simpl; try constructor.
  - apply IH.
  - now apply Forall_take.
Qed.

(** The result of the sort descends in the key. *)
Lemma sort_desc_descending (l : list A) :
  StronglySorted (fun a b => key b <= key a) (sort_desc key l).
Proof.
  apply StronglySorted_weaken with (R := ahead key (fun _ => 0)).
  - intros a b. apply ahead_key_le.
  - apply sort_desc_ahead. induction l as [|x l IH]; constructor; [exact IH|].
    apply Forall_forall. intros y _. apply Qle_refl.
Qed.

(** A list that descends in the key is left as it is. *)
Lemma sort_desc_sorted (l : list A) :
  StronglySorted (fun a b => key b <= key a) l -> sort_desc key l = l.
Proof.
  induction 1 as [|x l Hs IH Hx]; [reflexivity|].
  cbn [sort_desc foldr]. fold (sort_desc key l). rewrite IH.
  destruct l as [|y l']; [reflexivity|]. cbn [insert_desc].
  apply Forall_cons in Hx as [Hy _]. apply Qle_bool_iff in Hy. now rewrite Hy.
Qed.

Lemma slice_to_firstn (k : Z) (l : list A) : exists n, Py.slice_to k l = firstn n l.
Proof. unfold Py.slice_to. destruct (0 <=? k)%Z; eexists; reflexivity. Qed.

Lemma slice_to_length (k : Z) (l : list A) :
  (0 <= k)%Z -> (Z.of_nat (length (Py.slice_to k l)) <= k)%Z.
Proof. intros H. rewrite slice_to_nonneg by exact H. rewrite length_take. lia. Qed.

Lemma slice_to_all (k : Z) (l : list A) :
  (Z.of_nat (length l) <= k)%Z -> Py.slice_to k l = l.
Proof.
  intros H. rewrite slice_to_nonneg by lia. apply firstn_all2. lia.
Qed.

(** What holds of a whole list holds of a slice of its sorted arrangement. *)
Lemma sorted_slice_Forall (P : A -> Prop) (k : Z) (l : list A) :
  Forall P l -> Forall P (Py.slice_to k (sort_desc key l)).
Proof.
  intros H. destruct (slice_to_firstn k (sort_desc key l)) as [n ->].
  apply Forall_take. now rewrite (sort_desc_perm key l).
Qed.

Lemma sorted_slice_descending (k : Z) (l : list A) :
  StronglySorted (fun a b => key b <= key a) (Py.slice_to k (sort_desc key l)).
Proof.
  destruct (slice_to_firstn k (sort_desc key l)) as [n ->].
  apply StronglySorted_firstn, sort_desc_descending.
Qed.

End SortMore.

Section Division.

Local Open Scope Q_scope.

(** The division of a positive count by a count that is not smaller
    succeeds, with a quotient above 0 and at most 1. *)
Lemma truediv_fraction (o n : nat) :
  (0 < o)%nat -> (o <= n)%nat ->
  PyMore.truediv o n = Some (inject_Z (Z.of_nat o) / inject_Z (Z.of_nat n))
  /\ 0 < inject_Z (Z.of_nat o) / inject_Z (Z.of_nat n)
  /\ inject_Z (Z.of_nat o) / inject_Z (Z.of_nat n) <= 1.
Proof.
  intros Ho Hn. unfold PyMore.truediv.
  destruct (Nat.eqb_spec n 0) as [->|Hne]; [lia|].
  split; [reflexivity|]. split.
  - apply ratio_pos; lia.
  - apply Qle_shift_div_r; [apply inject_nat_pos; lia|].
    rewrite Qmult_1_l. now apply inject_nat_le.
Qed.

End Division.

(** ** Hybrid ranking, continued *)

Section RankingMore.

Import Hybrid.

Local Open Scope Q_scope.

(** X3. With a keyword weight of 0 and a dense weight that is not negative
    the re-ranking changes nothing: for a limit that is a count,
    [hybrid_search] returns the first [limit] hits of the store in the
    order of the store. *)
Theorem hybrid_search_dense_only
    (search : string -> Z -> list candidate) (query : string) (limit : Z)
    (dense_weight keyword_weight : Q) :
  (0 <= limit)%Z ->
  dense_ranked (search query (limit * 2)%Z) ->
  0 <= dense_weight ->
  keyword_weight == 0 ->
  map hit (hybrid_search search query limit dense_weight keyword_weight)
  = firstn (Z.to_nat limit) (search query (limit * 2)%Z).
Proof.
  intros Hlimit Hdense Hdw Hkw. unfold hybrid_search, rerank.
  rewrite slice_to_nonneg by exact Hlimit.
  rewrite sort_desc_sorted.
  - rewrite <- firstn_map, map_map. cbn [score_candidate hit]. now rewrite map_id.
  - induction Hdense as [|x l Hs IH Hx]; cbn [map]; constructor; [exact IH|].
    rewrite Forall_map. eapply Forall_impl; [exact Hx|].
    intros y Hy. cbn [score_candidate combined_score]. cbn beta in Hy.
    rewrite Hkw, !Qmult_0_l, !Qplus_0_r.
    rewrite (Qmult_comm dense_weight (score y)), (Qmult_comm dense_weight (score x)).
    now apply Qmult_le_compat_r.
Qed.

End RankingMore.

(** ** Keyword-only search *)

Section KeywordOnlySearch.

Import Hybrid KeywordOnly.

Local Open Scope Q_scope.

(** The list [results] before it is sorted. *)
Lemma collect_no_keywords (page : list scrolled) : collect ∅ page = Some [].
Proof.
  induction page as [|p page IH]; [reflexivity|].
  cbn [collect]. unfold score_point.
  destruct (decide ((∅ : gset string) = ∅)) as [_|H]; [|contradiction].
  now rewrite IH.
Qed.

Lemma collect_keywords (qk : gset string) (page : list scrolled) :
  qk <> ∅ ->
  exists results,
    collect qk page = Some results
    /\ Forall (fun h =>
         0 < kw_keyword_score h /\ kw_keyword_score h <= 1
         /\ kw_keyword_score h = keyword_score qk (extract_keywords (kw_content h))
         /\ matched_keywords h <> []
         /\ (forall k, k ∈ matched_keywords h <-> k ∈ qk /\ k ∈ extract_keywords (kw_content h))
         /\ exists p, In p page /\ overlaps qk p = true
                      /\ kw_content h = default "" (payload_content p)
                      /\ kw_memory_type h = payload_memory_type p
                      /\ kw_importance h = payload_importance p) results
    /\ (forall p, In p page -> overlaps qk p = true ->
          exists h, In h results /\ kw_content h = default "" (payload_content p))
    /\ (length results <= length page)%nat.
Proof.
  intros Hne. induction page as [|p page (rest & Hrest & Hall & Hcov & Hlen)].
  - exists []. split; [reflexivity|]. split; [constructor|].
    split; [intros p [] | reflexivity].
  - cbn [collect]. unfold score_point.
    destruct (decide (qk = ∅)) as [E|_]; [contradiction|]. cbn zeta.
    set (ck := extract_keywords (default "" (payload_content p))).
    assert (Hwiden : Forall (fun h =>
         0 < kw_keyword_score h /\ kw_keyword_score h <= 1
         /\ kw_keyword_score h = keyword_score qk (extract_keywords (kw_content h))
         /\ matched_keywords h <> []
         /\ (forall k, k ∈ matched_keywords h <-> k ∈ qk /\ k ∈ extract_keywords (kw_content h))
         /\ exists p0, In p0 (p :: page) /\ overlaps qk p0 = true
                      /\ kw_content h = default "" (payload_content p0)
                      /\ kw_memory_type h = payload_memory_type p0
                      /\ kw_importance h = payload_importance p0) rest).
    { eapply Forall_impl; [exact Hall|].
      intros h (H1 & H2 & H2' & H3 & H4 & p0 & Hin & Hrestp).
      split; [exact H1|]. split; [exact H2|]. split; [exact H2'|].
      split; [exact H3|]. split; [exact H4|].
      exists p0. split; [now right | exact Hrestp]. }
    destruct (Nat.ltb 0 (size (qk ∩ ck))) eqn:Hov.
    + apply Nat.ltb_lt in Hov.
      assert (Hle : (size (qk ∩ ck) <= size qk)%nat)
        by apply subseteq_size, intersection_subseteq_l.
      destruct (truediv_fraction _ _ Hov Hle) as (-> & Hpos & Hone).
      rewrite Hrest. eexists. split; [reflexivity|]. split; [|split].
      * cbn [app]. constructor; [|exact Hwiden]. cbn.
        split; [exact Hpos|]. split; [exact Hone|]. split.
        { unfold keyword_score. fold ck.
          destruct (decide (qk = ∅)); [contradiction | reflexivity]. }
        split.
        { intros E. apply elements_empty_inv, leibniz_equiv in E.
          rewrite E, size_empty in Hov. lia. }
        split.
        { intros k. rewrite elem_of_elements. fold ck. set_solver. }
        exists p. split; [now left|]. split; [|repeat split].
        unfold overlaps. fold ck. destruct (size (qk ∩ ck)); [lia | reflexivity].
      * intros p0 [<-|Hin] Hp0.
        { eexists. split; [now left | reflexivity]. }
        destruct (Hcov p0 Hin Hp0) as (h & Hh & Hc).
        exists h. split; [now right | exact Hc].
      * simpl. lia.
    + rewrite Hrest. exists rest. split; [reflexivity|]. split; [exact Hwiden|]. split.
      * intros p0 [<-|Hin] Hp0.
        { unfold overlaps in Hp0. fold ck in Hp0. congruence. }
        apply (Hcov p0 Hin Hp0).
      * simpl. lia.
Qed.

(** X4. [keyword_only_search] never fails on a division, whatever the
    query.  Each result comes from a point of the page that shares a
    keyword with the query (a point without content counts as empty); its
    score is above 0 and at most 1, and is the keyword score that
    [hybrid_search] gives the same content; its matched keywords are
    exactly the common keywords, at least one.  The results descend in the score.  For
    a limit that is a count there are at most [limit] of them, and when the
    page has no more than [limit] points every point that shares a keyword
    is among them. *)
Theorem keyword_only_search_results (query : string) (limit : Z) (page : list scrolled) :
  exists results,
    keyword_only_search query limit page = Some results
    /\ Forall (fun h =>
         0 < kw_keyword_score h /\ kw_keyword_score h <= 1
         /\ kw_keyword_score h
            = keyword_score (extract_keywords query) (extract_keywords (kw_content h))
         /\ matched_keywords h <> []
         /\ (forall k, k ∈ matched_keywords h
                       <-> k ∈ extract_keywords query /\ k ∈ extract_keywords (kw_content h))
         /\ exists p, In p page /\ overlaps (extract_keywords query) p = true
                      /\ kw_content h = default "" (payload_content p)
                      /\ kw_memory_type h = payload_memory_type p
                      /\ kw_importance h = payload_importance p) results
    /\ StronglySorted (fun a b => kw_keyword_score b <= kw_keyword_score a) results
    /\ ((0 <= limit)%Z -> (Z.of_nat (length results) <= limit)%Z)
    /\ ((Z.of_nat (length page) <= limit)%Z ->
        forall p, In p page -> overlaps (extract_keywords query) p = true ->
          exists h, In h results /\ kw_content h = default "" (payload_content p)).
Proof.
  unfold keyword_only_search.
  destruct (decide (extract_keywords query = ∅)) as [E|Hne].
  - rewrite E, collect_no_keywords. eexists. split; [reflexivity|].
    assert (Hnil : Py.slice_to limit (sort_desc kw_keyword_score []) = ([] : list kw_hit)).
    { destruct (slice_to_firstn limit (sort_desc kw_keyword_score ([] : list kw_hit))) as [n ->].
      cbn. now destruct n. }
    rewrite Hnil. split; [constructor|]. split; [constructor|].
    split; [intros; simpl; lia|].
    intros _ p _ Hp. unfold overlaps in Hp.
    rewrite intersection_empty_l_L, size_empty in Hp. discriminate.
  - destruct (collect_keywords (extract_keywords query) page Hne)
      as (results & -> & Hall & Hcov & Hlen).
    eexists. split; [reflexivity|].
    split; [now apply sorted_slice_Forall|].
    split; [apply sorted_slice_descending|].
    split; [apply slice_to_length|].
    intros Hfew p Hin Hp.
    destruct (Hcov p Hin Hp) as (h & Hh & Hc).
    exists h. split; [|exact Hc].
    rewrite slice_to_all.
    + apply (Permutation_in h (Permutation_sym (sort_desc_perm kw_keyword_score results)) Hh).
    + rewrite (Permutation_length (sort_desc_perm kw_keyword_score results)). lia.
Qed.

(** X5. A query without keywords finds nothing, whatever the page holds. *)
Theorem keyword_only_search_no_keywords (query : string) (limit : Z) (page : list scrolled) :
  extract_keywords query = ∅ -> keyword_only_search query limit page = Some [].
Proof.
  intros E. unfold keyword_only_search. rewrite E, collect_no_keywords.
  destruct (slice_to_firstn limit (sort_desc kw_keyword_score ([] : list kw_hit))) as [n ->].
  cbn. now destruct n.
Qed.

End KeywordOnlySearch.

(** ** Keyword search in a markdown file *)

Section MarkdownSearch.

Import Hybrid Bench.

Local Open Scope Q_scope.

Lemma collect_md (qw : gset string) (sections : list Sync.section) :
  exists scored,
    collect qw sections = Some scored
    /\ Forall (fun h =>
         0 < md_score h /\ md_score h <= 1
         /\ (String.length (md_content h) <= 200)%nat
         /\ md_method h = "markdown-keyword"
         /\ exists s, In s sections
                      /\ md_header h = Sync.header s
                      /\ md_content h = Py.str_take 200 (Py.strip (Sync.body s))) scored.
Proof.
  induction sections as [|s sections (rest & Hrest & Hall)].
  - exists []. split; [reflexivity | constructor].
  - cbn [collect]. unfold score_section.
    set (tw := list_to_set _ : gset string).
    assert (Hwiden : Forall (fun h =>
         0 < md_score h /\ md_score h <= 1
         /\ (String.length (md_content h) <= 200)%nat
         /\ md_method h = "markdown-keyword"
         /\ exists s0, In s0 (s :: sections)
                      /\ md_header h = Sync.header s0
                      /\ md_content h = Py.str_take 200 (Py.strip (Sync.body s0))) rest).
    { eapply Forall_impl; [exact Hall|].
      intros h (H1 & H2 & H3 & H4 & s0 & Hin & Hs0).
      split; [exact H1|]. split; [exact H2|]. split; [exact H3|]. split; [exact H4|].
      exists s0. split; [now right | exact Hs0]. }
    cbn zeta. destruct (Nat.ltb 0 (size (qw ∩ tw))) eqn:Hov.
    + apply Nat.ltb_lt in Hov.
      assert (Hle : (size (qw ∩ tw) <= size qw)%nat)
        by apply subseteq_size, intersection_subseteq_l.
      destruct (truediv_fraction _ _ Hov Hle) as (-> & Hpos & Hone).
      rewrite Hrest. eexists. split; [reflexivity|].
      cbn [app]. constructor; [|exact Hwiden].
      cbn [md_score md_content md_header md_method].
      split; [exact Hpos|]. split; [exact Hone|].
      split; [apply str_take_length|]. split; [reflexivity|].
      exists s. split; [now left|]. split; reflexivity.
    + rewrite Hrest. exists rest. split; [reflexivity | exact Hwiden].
Qed.

(** X6. [markdown_search] never divides by zero, although it has no test
    for an empty query: it divides only for a section that shares a word
    with the query.  Each result is a section of the file with a score
    above 0 and at most 1 and an excerpt of at most 200 characters; the
    results descend in the score, and for a limit that is a count there
    are at most [limit] of them. *)
Theorem markdown_search_results (content query : string) (limit : Z) :
  exists results,
    markdown_search content query limit = Some results
    /\ Forall (fun h =>
         0 < md_score h /\ md_score h <= 1
         /\ (String.length (md_content h) <= 200)%nat
         /\ md_method h = "markdown-keyword"
         /\ exists s, In s (parse_sections content)
                      /\ md_header h = Sync.header s
                      /\ md_content h = Py.str_take 200 (Py.strip (Sync.body s))) results
    /\ StronglySorted (fun a b => md_score b <= md_score a) results
    /\ ((0 <= limit)%Z -> (Z.of_nat (length results) <= limit)%Z).
Proof.
  unfold markdown_search.
  destruct (collect_md (list_to_set (PyMore.split_ws (Py.lower query)))
              (parse_sections content)) as (scored & -> & Hall).
  eexists. split; [reflexivity|].
  split; [now apply sorted_slice_Forall|].
  split; [apply sorted_slice_descending | apply slice_to_length].
Qed.

End MarkdownSearch.

(** ** Parsing a document into sections *)

Section StripFacts.

Lemma lstrip_clean (s : string) : clean_head (Py.lstrip s).
Proof.
  induction s as [|c s IH]; simpl; [exact I|].
  destruct (Py.is_space c) eqn:E; [exact IH | exact E].
Qed.

Lemma lstrip_of_clean (s : string) : clean_head s -> Py.lstrip s = s.
Proof. destruct s as [|c s]; simpl; [reflexivity|]. now intros ->. Qed.

Lemma rstrip_clean (s : string) : clean_head s -> clean_head (Py.rstrip s).
Proof.
  destruct s as [|c s]; simpl; [exact id|]. intros Hc.
  destruct (Py.rstrip s); [now rewrite Hc | exact Hc].
Qed.

Lemma rstrip_idem (s : string) : Py.rstrip (Py.rstrip s) = Py.rstrip s.
Proof.
  induction s as [|c s IH]; [reflexivity|].
  cbn [Py.rstrip]. destruct (Py.rstrip s) as [|d r] eqn:E.
  - destruct (Py.is_space c) eqn:Hc; [reflexivity|]. cbn [Py.rstrip]. now rewrite Hc.
  - cbn [Py.rstrip] in IH |- *. now rewrite IH.
Qed.

Lemma strip_idem (s : string) : Py.strip (Py.strip s) = Py.strip s.
Proof.
  unfold Py.strip.
  rewrite (lstrip_of_clean (Py.rstrip (Py.lstrip s))) by apply rstrip_clean, lstrip_clean.
  apply rstrip_idem.
Qed.

Lemma has_lf_lstrip (s : string) : Family.has_lf s = false -> Family.has_lf (Py.lstrip s) = false.
Proof.
  induction s as [|c s IH]; simpl; [reflexivity|]. intros H.
  apply orb_false_iff in H as [Hc Hs].
  destruct (Py.is_space c); [now apply IH|]. simpl. now rewrite Hc, Hs.
Qed.

Lemma has_lf_rstrip (s : string) : Family.has_lf s = false -> Family.has_lf (Py.rstrip s) = false.
Proof.
  induction s as [|c s IH]; simpl; [reflexivity|]. intros H.
  apply orb_false_iff in H as [Hc Hs]. specialize (IH Hs).
  destruct (Py.rstrip s) as [|d r].
  - destruct (Py.is_space c); [reflexivity|]. simpl. now rewrite Hc.
  - cbn [Family.has_lf] in IH |- *. now rewrite Hc, IH.
Qed.

Lemma has_lf_strip (s : string) : Family.has_lf s = false -> Family.has_lf (Py.strip s) = false.
Proof. intros H. now apply has_lf_rstrip, has_lf_lstrip. Qed.

Lemma has_lf_str_drop (n : nat) (s : string) :
  Family.has_lf s = false -> Family.has_lf (Py.str_drop n s) = false.
Proof.
  revert s. induction n as [|n IH]; intros [|c s] H; simpl; try assumption; try reflexivity.
  simpl in H. apply orb_false_iff in H as [_ Hs]. now apply IH.
Qed.

Lemma has_lf_str_take (n : nat) (s : string) :
  Family.has_lf s = false -> Family.has_lf (Py.str_take n s) = false.
Proof.
  revert s. induction n as [|n IH]; intros [|c s] H; simpl; try reflexivity.
  simpl in H. apply orb_false_iff in H as [Hc Hs]. now rewrite Hc, IH.
Qed.

(** The lines of a text hold no line feed. *)
Lemma split_lines_no_lf (s : string) :
  Forall (fun l => Family.has_lf l = false) (Py.split_lines s).
Proof.
  induction s as [|c s IH]; simpl; [now repeat constructor|].
  destruct (Ascii.eqb c Py.LF) eqn:E; [now constructor|].
  destruct (Py.split_lines s) as [|l ls]; [now repeat constructor; simpl; rewrite E|].
  apply Forall_cons in IH as [Hl Hls]. constructor; [|exact Hls].
  simpl. now rewrite E, Hl.
Qed.

(** A title line is not a section line, and the other way round. *)
Lemma title_not_section (line : string) :
  Py.startswith "# " line = true -> Py.startswith "## " line = false.
Proof.
  destruct line as [|a [|b l]]; cbn [Py.startswith]; try discriminate.
  - rewrite andb_false_r. discriminate.
  - destruct (Ascii.eqb_spec "#" a) as [<-|]; [|discriminate]. cbn [andb].
    destruct (Ascii.eqb_spec " " b) as [<-|]; [|discriminate]. reflexivity.
Qed.

End StripFacts.

Section Parsing.

Import Sync.

Lemma parse_line_invariant (lines : list string) (st : list section * section) :
  Forall (fun l => Family.has_lf l = false) lines ->
  Forall (fun s => Py.truthy (Py.strip (body s)) = true /\ tidy_header (header s)) (fst st) ->
  tidy_header (header (snd st)) ->
  Forall (fun s => Py.truthy (Py.strip (body s)) = true /\ tidy_header (header s))
    (fst (fold_left parse_line lines st))
  /\ tidy_header (header (snd (fold_left parse_line lines st))).
Proof.
  intros Hlines. revert st.
  induction Hlines as [|line lines Hline _ IH]; intros [sections current] Hs Hc;
    cbn [fold_left]; [now split|].
  apply IH; unfold parse_line; cbn [fst snd] in *.
  - destruct (Py.startswith "## " line); [|now destruct (negb _)].
    cbn [fst]. destruct (Py.truthy (Py.strip (body current))) eqn:E; [|exact Hs].
    apply Forall_app. split; [exact Hs|]. constructor; [now split | constructor].
  - destruct (Py.startswith "## " line); [|now destruct (negb _)].
    cbn [snd header]. split; [apply strip_idem|].
    now apply has_lf_strip, has_lf_str_drop.
Qed.

(** X7. Every section that [parse_sections] returns has a body that is
    not blank, and a header that is stripped and holds no line feed. *)
Theorem parse_sections_tidy (content : string) :
  Forall (fun s =>
            Py.truthy (Py.strip (body s)) = true
            /\ Py.strip (header s) = header s
            /\ Family.has_lf (header s) = false)
    (parse_sections content).
Proof.
  unfold parse_sections.
  pose proof (parse_line_invariant (Py.split_lines content)
                ([], {| header := ""; body := "" |}) (split_lines_no_lf content)) as H.
  destruct (fold_left parse_line (Py.split_lines content) _) as [sections current].
  cbn [fst snd] in H. destruct H as [Hs Hc]; [constructor | now split |].
  destruct (Py.truthy (Py.strip (body current))) eqn:E; [|exact Hs].
  apply Forall_app. split; [exact Hs|]. destruct Hc as [Hc1 Hc2].
  constructor; [now repeat split | constructor].
Qed.

Lemma parse_line_title (st : list section * section) (line : string) :
  Py.startswith "# " line = true -> parse_line st line = st.
Proof.
  intros H. unfold parse_line. destruct st as [sections current].
  now rewrite (title_not_section line H), H.
Qed.

Lemma fold_parse_line_titles (lines : list string) (st : list section * section) :
  fold_left parse_line lines st
  = fold_left parse_line (List.filter (fun l => negb (Py.startswith "# " l)) lines) st.
Proof.
  revert st. induction lines as [|line lines IH]; intros st; [reflexivity|].
  cbn [fold_left List.filter]. destruct (Py.startswith "# " line) eqn:E; cbn [negb].
  - rewrite (parse_line_title st line E). apply IH.
  - cbn [fold_left]. apply IH.
Qed.

(** X8. Title lines are no content: two documents whose lines, the lines
    that start with ["# "] left out, are the same parse to the same
    sections. *)
Theorem parse_sections_ignores_titles (content1 content2 : string) :
  List.filter (fun l => negb (Py.startswith "# " l)) (Py.split_lines content1)
  = List.filter (fun l => negb (Py.startswith "# " l)) (Py.split_lines content2) ->
  parse_sections content1 = parse_sections content2.
Proof.
  intros H. unfold parse_sections.
  rewrite (fold_parse_line_titles (Py.split_lines content1)),
          (fold_parse_line_titles (Py.split_lines content2)), H.
  reflexivity.
Qed.

(** The three parsers of the scripts. *)
Lemma fold_bench_client (lines : list string) (bst : list section * section)
    (cst : list (string * string) * string * string) :
  cst = (map (fun s => (header s, Py.strip (body s))) (fst bst),
         header (snd bst), body (snd bst)) ->
  fold_left ClientMore.parse_line lines cst
  = (map (fun s => (header s, Py.strip (body s))) (fst (fold_left Bench.parse_line lines bst)),
     header (snd (fold_left Bench.parse_line lines bst)),
     body (snd (fold_left Bench.parse_line lines bst))).
Proof.
  revert bst cst. induction lines as [|line lines IH]; intros [bs bc] cst ->; [reflexivity|].
  cbn [fold_left]. apply IH. cbn [fst snd].
  unfold ClientMore.parse_line, Bench.parse_line.
  destruct (Py.startswith "## " line); cbn [fst snd header body]; [|reflexivity].
  destruct (Py.truthy (Py.strip (body bc))); [|reflexivity].
  now rewrite map_app.
Qed.

Lemma client_parse_bench (content : string) :
  ClientMore.parse_sections content
  = map (fun s => (header s, Py.strip (body s))) (Bench.parse_sections content).
Proof.
  unfold ClientMore.parse_sections, Bench.parse_sections.
  rewrite (fold_bench_client (Py.split_lines content)
             ([], {| header := ""; body := "" |}) ([], "", "") eq_refl).
  destruct (fold_left Bench.parse_line (Py.split_lines content) _) as [bs bc].
  cbn [fst snd]. destruct (Py.truthy (Py.strip (body bc))); [|reflexivity].
  now rewrite map_app.
Qed.

(** X9. [MemoryClient.import_markdown] and [markdown_search] split a
    document in the same way: the sections of the first are the sections
    of the second with the body stripped. *)
Theorem client_sections_are_bench_sections (content : string) :
  ClientMore.parse_sections content
  = map (fun s => (header s, Py.strip (body s))) (Bench.parse_sections content).
Proof. apply client_parse_bench. Qed.

Lemma fold_bench_sync (lines : list string) (st : list section * section) :
  Forall (fun l => Py.startswith "# " l = false) lines ->
  fold_left Bench.parse_line lines st = fold_left parse_line lines st.
Proof.
  intros H. revert st. induction H as [|line lines Hline _ IH]; intros st; [reflexivity|].
  cbn [fold_left]. rewrite <- IH. f_equal.
  unfold Bench.parse_line, parse_line. destruct st as [sections current].
  destruct (Py.startswith "## " line); [reflexivity|]. now rewrite Hline.
Qed.

Lemma bench_parse_sync (content : string) :
  Forall (fun l => Py.startswith "# " l = false) (Py.split_lines content) ->
  Bench.parse_sections content = parse_sections content.
Proof.
  intros H. unfold Bench.parse_sections, parse_sections.
  now rewrite (fold_bench_sync _ _ H).
Qed.

(** X10. On a document without title lines [markdown_search] sees the
    sections that the import of [memory_sync.py] sees; the two parsers
    differ on title lines only. *)
Theorem bench_sections_are_sync_sections (content : string) :
  Forall (fun l => Py.startswith "# " l = false) (Py.split_lines content) ->
  Bench.parse_sections content = parse_sections content.
Proof. apply bench_parse_sync. Qed.

End Parsing.

(** ** Import, continued *)

Section ImportMore.

Import Sync.

Lemma imported_from_more filepath s sections pt :
  imported_from filepath sections pt -> imported_from filepath (s :: sections) pt.
Proof.
  intros (H1 & H2 & H3 & H4 & s0 & Hin & Hs0).
  repeat (split; [assumption|]). exists s0. split; [now right | exact Hs0].
Qed.

(** A pass keeps the entries the ledger had. *)
Lemma run_keeps_entries filepath sections st :
  sync_state st ⊆ sync_state (run filepath sections st).
Proof.
  revert st. induction sections as [|s sections IH]; intros st; [reflexivity|].
  rewrite run_cons. etransitivity; [|apply IH].
  destruct (import_section_cases filepath st s) as [[_ ->]|[(_ & _ & ->)|(_ & Hout & ->)]].
  - reflexivity.
  - reflexivity.
  - cbn [count_new sync_state]. now apply insert_subseteq.
Qed.

(** The points a pass adds. *)
Lemma run_points filepath sections st :
  exists pts,
    points (loop_world (run filepath sections st)) = points (loop_world st) ++ pts
    /\ Forall (imported_from filepath sections) pts.
Proof.
  revert st. induction sections as [|s sections IH]; intros st.
  - exists []. split; [now rewrite app_nil_r | constructor].
  - rewrite run_cons. destruct (IH (import_section filepath st s)) as (pts & Hp & Hall).
    assert (Hall' : Forall (imported_from filepath (s :: sections)) pts).
    { eapply Forall_impl; [exact Hall|]. intros pt. apply imported_from_more. }
    destruct (import_section_cases filepath st s) as [[_ E]|[(_ & _ & E)|(Hq & _ & E)]];
      rewrite E in Hp |- *.
    + now exists pts.
    + now exists pts.
    + exists (imported_point filepath (loop_world st) s :: pts).
      split; [rewrite Hp; cbn [count_new loop_world points]; now rewrite <- app_assoc|].
      constructor; [|exact Hall'].
      repeat split; [now left|]. exists s. split; [now left|]. now repeat split.
Qed.

(** X11. A run that loads its ledger never loses ledger entries: the
    ledger it writes holds every entry of the ledger it loaded, unchanged,
    its keys are the old keys and the content hashes of the qualifying
    sections, and no file but the ledger is touched. *)
Theorem sync_ledger_grows (filepath content p : string) (w : world) (d0 : ledger) :
  Py.truthy p = true ->
  load_sync_state (Some p) w = Return d0 ->
  exists s w' d1,
    sync_from_markdown filepath content (Some p) w = (Return s, w')
    /\ files w' = <[p := Json d1]> (files w)
    /\ d0 ⊆ d1
    /\ dom d1 = dom d0 ∪ list_to_set (identities (parse_sections content)).
Proof.
  intros Hp Hload. unfold sync_from_markdown. rewrite Hload.
  unfold save_sync_state. rewrite (given_truthy p Hp).
  do 3 eexists. split; [reflexivity|]. cbn [files].
  rewrite import_pass_run.
  destruct (run_counts filepath (parse_sections content)
              {| loop_world := w; sync_state := d0; loop_stats := fresh_stats |})
    as (_ & _ & _ & Hf & _). cbn [loop_world] in Hf.
  split; [now rewrite Hf|]. split.
  - apply (run_keeps_entries filepath (parse_sections content)
             {| loop_world := w; sync_state := d0; loop_stats := fresh_stats |}).
  - apply (run_dom filepath (parse_sections content)
             {| loop_world := w; sync_state := d0; loop_stats := fresh_stats |}).
Qed.

(** X12. A run that loads its ledger stores exactly [new] points, after
    the points the store had.  Each is the point of a qualifying section of
    the document: type "semantic", importance 0.7, no session, the path of
    the document as its source.  Every qualifying section is counted once,
    as new or as skipped, and [updated] stays 0. *)
Theorem sync_stores_new_sections
    (filepath content : string) (sync_state_path : option string) (w : world) (d0 : ledger) :
  load_sync_state sync_state_path w = Return d0 ->
  exists s w' pts,
    sync_from_markdown filepath content sync_state_path w = (Return s, w')
    /\ points w' = points w ++ pts
    /\ length pts = new s
    /\ Forall (imported_from filepath (parse_sections content)) pts
    /\ new s + skipped s = length (List.filter qualifies (parse_sections content))
    /\ updated s = 0.
Proof.
  intros Hload. unfold sync_from_markdown. rewrite Hload.
  rewrite import_pass_run.
  set (st0 := {| loop_world := w; sync_state := d0; loop_stats := fresh_stats |}).
  destruct (run_counts filepath (parse_sections content) st0)
    as (_ & Hsum & Hu & _ & pts & Hp & Hn).
  destruct (run_points filepath (parse_sections content) st0) as (pts' & Hp' & Hall).
  cbn [st0 loop_world loop_stats fresh_stats new skipped updated] in *.
  assert (pts' = pts) as -> by (rewrite Hp in Hp'; now apply app_inv_head in Hp').
  exists (loop_stats (run filepath (parse_sections content) st0)),
         (save_sync_state sync_state_path (sync_state (run filepath (parse_sections content) st0))
            (loop_world (run filepath (parse_sections content) st0))), pts.
  split; [reflexivity|]. split.
  { unfold save_sync_state. destruct (given sync_state_path); exact Hp. }
  split; [lia|]. split; [exact Hall|]. split.
  - unfold identities in Hsum. rewrite length_map in Hsum. lia.
  - exact Hu.
Qed.

End ImportMore.

(** ** The import of the client *)

Section ClientImport.

Import ClientMore.

Lemma import_one_fold (filepath : string) (sections : list (string * string))
    (n : nat) (w : world) :
  exists pts,
    fst (fold_left (import_one filepath) sections (n, w))
      = n + length (List.filter long_enough sections)
    /\ points (snd (fold_left (import_one filepath) sections (n, w))) = points w ++ pts
    /\ length pts = length (List.filter long_enough sections)
    /\ Forall (client_point filepath) pts
    /\ files (snd (fold_left (import_one filepath) sections (n, w))) = files w.
Proof.
  revert n w. induction sections as [|[header text] sections IH]; intros n w.
  - exists []. cbn. rewrite app_nil_r. repeat split; [lia | constructor].
  - cbn [fold_left List.filter].
    assert (Estep : import_one filepath (n, w) (header, text)
                    = if long_enough (header, text)
                      then (S n, snd (Client.store
                                        (if Py.truthy header then header +:+ ": " +:+ text else text)
                                        "semantic" 0.7%float
                                        (if Py.truthy header
                                         then [Py.replace_space_hyphen (Py.lower header)] else [])
                                        None [("source", filepath); ("header", header)] w))
                      else (n, w)) by reflexivity.
    rewrite Estep. destruct (long_enough (header, text)).
    + match goal with
      | |- context [fold_left _ sections (S n, ?w1)] => set (wn := w1)
      end.
      assert (Hw : exists pt, points wn = points w ++ [pt]
                              /\ client_point filepath pt /\ files wn = files w).
      { eexists. split; [reflexivity|]. split; [|reflexivity]. repeat split. now left. }
      destruct Hw as (pt & Hwp & Hpt & Hwf). clearbody wn.
      destruct (IH (S n) wn) as (pts & Hn & Hp & Hl & Hall & Hf).
      exists (pt :: pts). rewrite Hn, Hp, Hf, Hwp, Hwf, <- app_assoc. cbn [length app].
      split; [lia|]. split; [reflexivity|]. split; [now rewrite Hl|].
      split; [|reflexivity]. now constructor.
    + destruct (IH n w) as (pts & Hn & Hp & Hl & Hall & Hf).
      exists pts. now repeat split.
Qed.

(** X13. [import_markdown] returns the number of points it stored: one
    for every section of the document whose stripped body has more than 50
    characters, each of type "semantic" with importance 0.7 and the path
    as its source.  It touches no file. *)
Theorem import_markdown_count (filepath content : string) (w : world) :
  exists pts,
    fst (import_markdown filepath content w)
      = length (List.filter long_enough (parse_sections content))
    /\ points (snd (import_markdown filepath content w)) = points w ++ pts
    /\ length pts = fst (import_markdown filepath content w)
    /\ Forall (client_point filepath) pts
    /\ files (snd (import_markdown filepath content w)) = files w.
Proof.
  unfold import_markdown.
  destruct (import_one_fold filepath (parse_sections content) 0 w)
    as (pts & Hn & Hp & Hl & Hall & Hf).
  exists pts. rewrite Hn. repeat split; try assumption.
Qed.

(** X14. [import_markdown] keeps no record of what it imported: a second
    call on the same document returns the same count and stores the same
    number of points again. *)
Theorem import_markdown_repeats (filepath content : string) (w : world) :
  let first := import_markdown filepath content w in
  let second := import_markdown filepath content (snd first) in
  fst second = fst first
  /\ length (points (snd second)) = length (points w) + 2 * fst first.
Proof.
  cbn zeta. unfold import_markdown.
  destruct (import_one_fold filepath (parse_sections content) 0 w)
    as (pts & Hn & Hp & Hl & _ & _).
  destruct (import_one_fold filepath (parse_sections content) 0
              (snd (fold_left (import_one filepath) (parse_sections content) (0, w))))
    as (pts' & Hn' & Hp' & Hl' & _ & _).
  rewrite Hn', Hn, Hp', Hp, !length_app. split; [reflexivity | lia].
Qed.

Lemma long_enough_qualifies (l : list Sync.section) :
  length (List.filter long_enough
            (map (fun s => (Sync.header s, Py.strip (Sync.body s))) l))
  <= length (List.filter Sync.qualifies l).
Proof.
  induction l as [|s l IH]; [reflexivity|]. cbn [map List.filter].
  unfold long_enough at 1, Sync.qualifies at 1. cbn [snd].
  destruct (Nat.ltb_spec 50 (String.length (Py.strip (Sync.body s)))) as [Hl|Hl];
    destruct (Nat.ltb_spec (String.length (Py.strip (Sync.body s))) 30) as [Hq|Hq];
    cbn [negb length]; lia.
Qed.

(** X23. On a document without title lines [import_markdown] stores at
    most as many sections as the import of [memory_sync.py] accepts: it
    wants more than 50 characters where the other wants 30. *)
Theorem import_markdown_stores_fewer (filepath content : string) (w : world) :
  Forall (fun l => Py.startswith "# " l = false) (Py.split_lines content) ->
  fst (import_markdown filepath content w)
  <= length (List.filter Sync.qualifies (Sync.parse_sections content)).
Proof.
  intros H. unfold import_markdown.
  destruct (import_one_fold filepath (parse_sections content) 0 w) as (pts & Hn & _).
  rewrite Hn, client_parse_bench, (bench_parse_sync content H).
  apply long_enough_qualifies.
Qed.

End ClientImport.

(** ** The two-way synchronisation *)

Section FullSyncFacts.

Import Sync FullSync.

Lemma given_some_truthy (sp : option string) (p : string) :
  given sp = Some p -> Py.truthy p = true.
Proof.
  destruct sp as [q|]; cbn [given]; [|discriminate].
  destruct (Py.truthy q) eqn:E; [|discriminate]. now intros [= <-].
Qed.

Lemma ledger_path_truthy (markdown_path : string) (sp : option string) :
  Py.truthy (ledger_path markdown_path sp) = true.
Proof.
  unfold ledger_path. destruct (given sp) as [p|] eqn:E.
  - now apply given_some_truthy in E.
  - destruct markdown_path; reflexivity.
Qed.

(** A run on a ledger that knows every qualifying section changes nothing. *)
Lemma sync_again (filepath content p : string) (w : world) (d : ledger) :
  Py.truthy p = true ->
  files w !! p = Some (Json d) ->
  (forall h, h ∈ identities (parse_sections content) -> is_Some (d !! h)) ->
  sync_from_markdown filepath content (Some p) w =
    (Return {| new := 0;
               skipped := length (List.filter qualifies (parse_sections content));
               updated := 0 |}, w).
Proof.
  intros Hp Hfile Hkeys. unfold sync_from_markdown, load_sync_state.
  rewrite (given_truthy p Hp), Hfile.
  rewrite import_pass_run, run_all_known by exact Hkeys.
  unfold save_sync_state. rewrite (given_truthy p Hp). simpl.
  unfold identities. rewrite length_map.
  rewrite insert_id by exact Hfile. now destruct w.
Qed.

(** What the export step of [full_sync] does to the world. *)
Lemma export_step (fixed1 repr : float -> string) (export_path : option string)
    (semantic episodic : list memory) (w : world) :
  let step :=
    match given export_path with
    | Some out =>
        let '(n, w') := export_to_markdown fixed1 repr out 0.6%float semantic episodic w in
        (Some n, w')
    | None => (None, w)
    end in
  points (snd step) = points w
  /\ (forall q, given export_path <> Some q -> files (snd step) !! q = files w !! q)
  /\ (forall q, given export_path = Some q -> exists raw, files (snd step) !! q = Some (Text raw)).
Proof.
  cbn zeta. destruct (given export_path) as [out|]; cbn.
  - split; [reflexivity|]. split.
    + intros q Hq. apply lookup_insert_ne. congruence.
    + intros q [= <-]. eexists. apply lookup_insert_eq.
  - split; [reflexivity|]. split; [reflexivity | discriminate].
Qed.

(** X15. [full_sync] always runs the import with a ledger (the path given,
    or the path of the document followed by [.sync.json]).  So when the
    export does not go to the ledger file, a second [full_sync] on the
    same document imports nothing: it counts every qualifying section as
    skipped, stores no point and reports the same total, whatever the store
    returns to the export. *)
Theorem full_sync_twice (fixed1 repr : float -> string)
    (markdown_path content : string) (export_path sync_state_path : option string)
    (semantic episodic semantic' episodic' : list memory)
    (w w1 : world) (r1 : report) :
  given export_path <> Some (ledger_path markdown_path sync_state_path) ->
  full_sync fixed1 repr markdown_path content export_path sync_state_path
    semantic episodic w = (Return r1, w1) ->
  exists r2 w2,
    full_sync fixed1 repr markdown_path content export_path sync_state_path
      semantic' episodic' w1 = (Return r2, w2)
    /\ import_stats r2 =
         {| new := 0;
            skipped := length (List.filter qualifies (parse_sections content));
            updated := 0 |}
    /\ points w2 = points w1
    /\ total r2 = total r1
    /\ (exists d, files w1 !! ledger_path markdown_path sync_state_path = Some (Json d)
                  /\ files w2 !! ledger_path markdown_path sync_state_path = Some (Json d)).
Proof.
  intros Hout Hfirst.
  set (p := ledger_path markdown_path sync_state_path) in *.
  pose proof (ledger_path_truthy markdown_path sync_state_path) as Hp. fold p in Hp.
  unfold full_sync in Hfirst. fold p in Hfirst.
  destruct (sync_from_markdown markdown_path content (Some p) w) as [[s|e] wa] eqn:Hsync;
    [|discriminate].
  destruct (sync_persists _ _ _ _ _ _ Hp Hsync) as (d & Hd & Hkeys).
  destruct (export_step fixed1 repr export_path semantic episodic wa) as (Hpts & Hfiles & _).
  cbn zeta in Hpts, Hfiles.
  destruct (match given export_path with
            | Some out =>
                let '(n, w') := export_to_markdown fixed1 repr out 0.6%float semantic episodic wa in
                (Some n, w')
            | None => (None, wa)
            end) as [c1 wb] eqn:Hexp.
  cbn [snd] in Hpts, Hfiles. injection Hfirst as <- <-.
  assert (Hd1 : files wb !! p = Some (Json d)) by (rewrite (Hfiles p Hout); exact Hd).
  unfold full_sync. fold p. rewrite (sync_again _ _ _ _ _ Hp Hd1 Hkeys).
  destruct (export_step fixed1 repr export_path semantic' episodic' wb) as (Hpts2 & Hfiles2 & _).
  cbn zeta in Hpts2, Hfiles2.
  destruct (match given export_path with
            | Some out =>
                let '(n, w') := export_to_markdown fixed1 repr out 0.6%float semantic' episodic' wb in
                (Some n, w')
            | None => (None, wb)
            end) as [c2 wc] eqn:Hexp2.
  cbn [snd] in Hpts2, Hfiles2.
  do 2 eexists. split; [reflexivity|]. cbn [import_stats total].
  split; [reflexivity|]. split; [exact Hpts2|]. split.
  - unfold ClientMore.count. now rewrite Hpts2.
  - exists d. split; [exact Hd1|]. rewrite (Hfiles2 p Hout). exact Hd1.
Qed.

(** X16. When the export path is the ledger path, [full_sync] overwrites
    the ledger it has just written with the exported document, and the
    next [full_sync] fails: [json.load] raises on the ledger file and
    nothing is imported or exported. *)
Theorem full_sync_export_onto_ledger (fixed1 repr : float -> string)
    (markdown_path content : string) (export_path sync_state_path : option string)
    (semantic episodic semantic' episodic' : list memory)
    (w w1 : world) (r1 : report) :
  given export_path = Some (ledger_path markdown_path sync_state_path) ->
  full_sync fixed1 repr markdown_path content export_path sync_state_path
    semantic episodic w = (Return r1, w1) ->
  full_sync fixed1 repr markdown_path content export_path sync_state_path
    semantic' episodic' w1 = (Raise JSONDecodeError, w1).
Proof.
  intros Hout Hfirst.
  set (p := ledger_path markdown_path sync_state_path) in *.
  pose proof (ledger_path_truthy markdown_path sync_state_path) as Hp. fold p in Hp.
  unfold full_sync in Hfirst. fold p in Hfirst.
  destruct (sync_from_markdown markdown_path content (Some p) w) as [[s|e] wa] eqn:Hsync;
    [|discriminate].
  destruct (export_step fixed1 repr export_path semantic episodic wa) as (_ & _ & Htext).
  cbn zeta in Htext.
  destruct (match given export_path with
            | Some out =>
                let '(n, w') := export_to_markdown fixed1 repr out 0.6%float semantic episodic wa in
                (Some n, w')
            | None => (None, wa)
            end) as [c1 wb] eqn:Hexp.
  cbn [snd] in Htext. injection Hfirst as <- <-.
  destruct (Htext p Hout) as [raw Hraw].
  unfold full_sync. fold p.
  unfold sync_from_markdown, load_sync_state. now rewrite (given_truthy p Hp), Hraw.
Qed.

End FullSyncFacts.

(** ** Export, continued *)

Section ExportMore.

Import Sync.

Lemma first_new_hashes (seen_hashes : gset string) (l : list memory) :
  list_to_set (map mem_hash (first_new seen_hashes l)) ∪ seen_hashes
  = list_to_set (map mem_hash l) ∪ seen_hashes.
Proof.
  revert seen_hashes. induction l as [|mem l IH]; intros seen_hashes; [reflexivity|].
  cbn [first_new]. destruct (decide (mem_hash mem ∈ seen_hashes)) as [Hin|Hout].
  - rewrite IH. cbn [map list_to_set]. set_solver.
  - cbn [map list_to_set].
    specialize (IH ({[mem_hash mem]} ∪ seen_hashes)).
    apply set_eq. intros x.
    assert (Hx : x ∈ list_to_set (map mem_hash (first_new ({[mem_hash mem]} ∪ seen_hashes) l))
                       ∪ ({[mem_hash mem]} ∪ seen_hashes)
                 <-> x ∈ list_to_set (map mem_hash l) ∪ ({[mem_hash mem]} ∪ seen_hashes))
      by now rewrite IH.
    clear IH. set_solver.
Qed.

Lemma organize_kept (semantic episodic : list memory) :
  let o := organize semantic episodic in
  seen o = list_to_set (map mem_hash (semantic_knowledge o ++ recent_conversations o))
  /\ List.NoDup (map mem_hash (semantic_knowledge o ++ recent_conversations o)).
Proof.
  cbn zeta. destruct (organize_first_new semantic episodic) as [Hs He]. cbn zeta in He.
  rewrite Hs, He. split.
  - unfold organize. rewrite keep_first_fold, keep_episodic_fold, keep_first_fold.
    cbn [seen]. rewrite map_app, list_to_set_app_L.
    pose proof (first_new_hashes ∅ semantic) as H1.
    pose proof (first_new_hashes (list_to_set (map mem_hash semantic))
                  (List.filter is_episodic episodic)) as H2.
    set_solver.
  - apply NoDup_ListNoDup. rewrite map_app. apply NoDup_app.
    split; [apply first_new_NoDup|]. split; [|apply first_new_NoDup].
    intros h Hh1 Hh2. apply list_elem_of_In, in_map_iff in Hh1, Hh2.
    destruct Hh1 as (m1 & <- & Hm1), Hh2 as (m2 & E & Hm2).
    apply first_new_fresh in Hm1 as [Hm1 _], Hm2 as [_ Hm2].
    apply Hm2. rewrite E. apply elem_of_list_to_set, list_elem_of_In. now apply in_map.
Qed.

(** X17. The number [export_to_markdown] returns is the number of records
    in the exported document.  The export stores no point and writes the
    output file only. *)
Theorem export_count (fixed1 repr : float -> string) (output_path : string)
    (min_importance : float) (semantic episodic : list memory) (w : world) :
  let o := organize semantic episodic in
  let '(n, w') :=
    export_to_markdown fixed1 repr output_path min_importance semantic episodic w in
  n = length (semantic_knowledge o) + length (recent_conversations o)
  /\ points w' = points w
  /\ (exists raw, files w' = <[output_path := Text raw]> (files w)).
Proof.
  cbn zeta. unfold export_to_markdown. cbn [Client.utcnow points files].
  destruct (organize_kept semantic episodic) as [Hseen Hnd]. cbn zeta in Hseen, Hnd.
  split; [|split; [reflexivity | eexists; reflexivity]].
  rewrite Hseen, size_list_to_set by now apply NoDup_ListNoDup.
  now rewrite length_map, length_app.
Qed.

Lemma has_lf_unbroken (s : string) :
  Family.has_lf
    (Py.map_chars (fun c => if Ascii.eqb c Py.LF then " "%char else c) s) = false.
Proof.
  induction s as [|c s IH]; [reflexivity|]. cbn [Py.map_chars Family.has_lf].
  rewrite IH, orb_false_r. destruct (Ascii.eqb c Py.LF) eqn:E; [reflexivity | exact E].
Qed.

(** X18. A record takes one or two lines of the exported document: the
    line of its text, which shows at most 200 characters of the content
    and no line feed of it, and, when the record has entities, the line of
    its first five tags. *)
Theorem render_memory_lines (fixed1 : float -> string) (mem : memory) :
  exists excerpt,
    (String.length excerpt <= 200)
    /\ Family.has_lf excerpt = false
    /\ render_memory fixed1 mem =
         ("- **[" +:+ fixed1 (importance mem) +:+ "]** " +:+ excerpt)
         :: match entities mem with
            | [] => []
            | _ :: _ => ["  - *Tags: " +:+ join ", " (firstn 5 (entities mem)) +:+ "*"]
            end.
Proof.
  eexists. split; [apply str_take_length|]. split.
  - apply has_lf_str_take, has_lf_strip, has_lf_unbroken.
  - unfold render_memory. destruct (entities mem); reflexivity.
Qed.

End ExportMore.

(** ** Conversation ingestion, continued *)

Section IngestMore.

Import Ingest.

Local Open Scope float_scope.

(** X19. The cap of the estimator never applies: the result is the plain
    sum of the base and the increments, at most 0.9.  It is at most 0.75
    for a role other than "user" and at most 0.6 for a role that is
    neither "user" nor "assistant". *)
Theorem calculate_importance_below_cap (text role : string) :
  calculate_importance text role =
    0.5 + user_bonus role + preference_bonus text role
    + action_bonus text role + length_bonus text
  /\ (calculate_importance text role <=? 0.9) = true
  /\ (role <> "user"%string -> (calculate_importance text role <=? 0.75) = true)
  /\ (role <> "user"%string -> role <> "assistant"%string ->
      (calculate_importance text role <=? 0.6) = true).
Proof.
  unfold calculate_importance, user_bonus, preference_bonus, action_bonus, length_bonus.
  generalize (any_in ["prefer"; "want"; "need"; "important"; "remember"]%string (Py.lower text)).
  generalize (any_in ["created"; "installed"; "configured"; "deployed"]%string (Py.lower text)).
  intros acted preferred.
  destruct (String.eqb_spec role "user") as [->|Hu].
  - change (String.eqb "user" "assistant") with false.
    destruct acted, preferred, (Nat.ltb 200 (String.length text));
      vm_compute; repeat split; intros; congruence.
  - destruct (String.eqb_spec role "assistant") as [->|Ha];
      destruct acted, preferred, (Nat.ltb 200 (String.length text));
      vm_compute; repeat split; intros; congruence.
Qed.

Lemma lower_char_idem (c : ascii) : Py.lower_char (Py.lower_char c) = Py.lower_char c.
Proof. destruct c as [[] [] [] [] [] [] [] []]; reflexivity. Qed.

Lemma lower_idem (s : string) : Py.lower (Py.lower s) = Py.lower s.
Proof.
  unfold Py.lower. induction s as [|c s IH]; [reflexivity|].
  cbn [Py.map_chars]. now rewrite lower_char_idem, IH.
Qed.

Lemma lower_length (s : string) : String.length (Py.lower s) = String.length s.
Proof.
  unfold Py.lower. induction s as [|c s IH]; [reflexivity|].
  cbn [Py.map_chars String.length]. now rewrite IH.
Qed.

(** X20. The estimate does not depend on the case of the letters of the
    text. *)
Theorem calculate_importance_ignores_case (text role : string) :
  calculate_importance (Py.lower text) role = calculate_importance text role.
Proof.
  unfold calculate_importance. now rewrite lower_idem, lower_length.
Qed.

End IngestMore.

Section EntitiesMore.

Import Ingest.

(** X21. The entities of a text are distinct, each of them is one of the
    mentions, domains, code terms and fixed keywords found in the text,
    and when the text has at most 10 distinct ones none is left out. *)
Theorem extract_entities_distinct (text : string) :
  NoDup (extract_entities text)
  /\ (forall e, e ∈ extract_entities text -> e ∈ raw_entities text)
  /\ length (extract_entities text)
     = Nat.min 10 (size (list_to_set (raw_entities text) : gset string))
  /\ (size (list_to_set (raw_entities text) : gset string) <= 10 ->
      forall e, e ∈ raw_entities text -> e ∈ extract_entities text).
Proof.
  unfold extract_entities.
  set (X := list_to_set (raw_entities text) : gset string).
  split; [|split; [|split]].
  - apply (sublist_NoDup _ (elements X)); [apply NoDup_elements | apply sublist_take].
  - intros e He. eapply elem_of_sublist in He; [|apply sublist_take].
    apply elem_of_elements in He. now apply elem_of_list_to_set in He.
  - rewrite length_take. reflexivity.
  - intros Hsize e He. rewrite take_ge by exact Hsize.
    apply elem_of_elements. now apply elem_of_list_to_set.
Qed.

End EntitiesMore.

(** ** Transcripts *)

Section TranscriptFacts.

Import Ingest Transcript.

Lemma pretty_N_go_nonempty (x : N) (s : string) : s <> "" -> pretty_N_go x s <> "".
Proof.
  revert s. induction (N.lt_wf_0 x) as [x _ IH]; intros s Hs.
  destruct (decide (x = 0%N)) as [->|Hx].
  - now rewrite pretty_N_go_0.
  - rewrite pretty_N_go_step by lia. apply IH; [apply N.div_lt; lia | discriminate].
Qed.

(** An identifier of the store is not the empty string. *)
Lemma pretty_nat_truthy (n : nat) : Py.truthy (pretty n) = true.
Proof.
  assert (H : pretty n <> "").
  { unfold pretty, pretty_nat, pretty, pretty_N.
    destruct (decide (N.of_nat n = 0%N)); [discriminate|].
    rewrite pretty_N_go_step by lia. apply pretty_N_go_nonempty. discriminate. }
  destruct (pretty n); [contradiction | reflexivity].
Qed.

Lemma counted_refl session_id st : counted session_id st st.
Proof.
  exists []. rewrite app_nil_r. repeat split; [simpl; lia | constructor].
Qed.

Lemma counted_trans session_id st1 st2 st3 :
  counted session_id st1 st2 -> counted session_id st2 st3 -> counted session_id st1 st3.
Proof.
  intros (p1 & Hn1 & Hp1 & Ha1 & Hf1) (p2 & Hn2 & Hp2 & Ha2 & Hf2).
  exists (p1 ++ p2). rewrite Hn2, Hn1, Hp2, Hp1, Hf2, Hf1, length_app, <- app_assoc.
  repeat split; [lia|]. now apply Forall_app.
Qed.

Lemma ingest_counted_counted session_id st text role :
  counted session_id st (ingest_counted session_id st text role).
Proof.
  destruct st as [n w]. unfold ingest_counted.
  destruct (Py.truthy text); [|apply counted_refl].
  unfold ingest_turn. destruct (Nat.ltb (String.length text) 20) eqn:E.
  - apply counted_refl.
  - apply Nat.ltb_ge in E.
    unfold Client.store, Client.uuid4, Client.utcnow, Client.upsert.
    cbn [points files clock uuids]. rewrite pretty_nat_truthy.
    eexists [_]. cbn [fst snd points files length].
    split; [lia|]. split; [reflexivity|]. split; [|reflexivity].
    constructor; [|constructor].
    split; [reflexivity|]. split; [reflexivity|].
    exists role, text. cbn [point_content point_importance point_metadata].
    repeat split; [exact E | now left].
Qed.

Lemma fold_counted {X : Type} session_id (f : nat * world -> X -> nat * world)
    (xs : list X) (st : nat * world) :
  (forall st x, counted session_id st (f st x)) ->
  counted session_id st (fold_left f xs st).
Proof.
  intros Hf. revert st. induction xs as [|x xs IH]; intros st; [apply counted_refl|].
  cbn [fold_left]. eapply counted_trans; [apply Hf | apply IH].
Qed.

(** X22. [ingest_transcript] returns the number of points it stored, in
    the JSON and in the plain format alike.  Each stored point is of type
    "episodic", carries the session given, and holds a turn of at least 20
    characters behind its role in brackets.  No file is touched. *)
Theorem ingest_transcript_count (json_loads : string -> parsed) (content : string)
    (session_id : option string) (w : world) :
  exists pts,
    fst (ingest_transcript json_loads content session_id w) = length pts
    /\ points (snd (ingest_transcript json_loads content session_id w)) = points w ++ pts
    /\ Forall (turn_point session_id) pts
    /\ files (snd (ingest_transcript json_loads content session_id w)) = files w.
Proof.
  assert (H : counted session_id (0, w) (ingest_transcript json_loads content session_id w)).
  { unfold ingest_transcript.
    assert (Hline : forall st line, counted session_id st (ingest_line session_id st line)).
    { intros st line. unfold ingest_line.
      destruct (negb (Py.truthy (Py.strip line))); [apply counted_refl|].
      destruct (split_role (Py.strip line)). apply ingest_counted_counted. }
    destruct (json_loads content); apply fold_counted; try exact Hline.
    intros st t. apply ingest_counted_counted. }
  destruct H as (pts & Hn & Hp & Hall & Hf). exists pts. now repeat split.
Qed.

End TranscriptFacts.

(** ** The content hash *)

Section ContentHash.

Import MD5.

Local Open Scope Z_scope.

Definition byte_range (b : Z) : Prop := 0 <= b < 256.

Lemma le_bytes_length (n : nat) (x : Z) : length (le_bytes n x) = n.
Proof. revert x. induction n as [|n IH]; intros x; simpl; [reflexivity | now rewrite IH]. Qed.

Lemma le_bytes_range (n : nat) (x : Z) : Forall byte_range (le_bytes n x).
Proof.
  revert x. induction n as [|n IH]; intros x; cbn [le_bytes]; constructor; [|apply IH].
  unfold byte_range. change 0xff with (Z.ones 8). rewrite Z.land_ones by lia.
  apply Z.mod_pos_bound. lia.
Qed.

Lemma digest_shape (msg : list Z) :
  length (digest msg) = 16%nat /\ Forall byte_range (digest msg).
Proof.
  unfold digest. destruct (fold_left block _ init) as [[[a b] c] d].
  split.
  - rewrite !length_app, !le_bytes_length. reflexivity.
  - repeat (apply Forall_app; split); apply le_bytes_range.
Qed.

Lemma hex_digit_lower (x : Z) : 0 <= x < 16 -> is_lower_hex (hex_digit x) = true.
Proof.
  intros H.
  assert (E : x = 0 \/ x = 1 \/ x = 2 \/ x = 3 \/ x = 4 \/ x = 5 \/ x = 6 \/ x = 7
              \/ x = 8 \/ x = 9 \/ x = 10 \/ x = 11 \/ x = 12 \/ x = 13 \/ x = 14
              \/ x = 15) by lia.
  repeat (destruct E as [->|E]; [reflexivity|]). now subst.
Qed.

Lemma hex_shape (bs : list Z) :
  Forall byte_range bs ->
  String.length (hex bs) = (2 * length bs)%nat /\ all_chars is_lower_hex (hex bs) = true.
Proof.
  induction 1 as [|b bs Hb _ [IHl IHc]]; [split; reflexivity|].
  cbn [hex String.length all_chars length]. unfold byte_range in Hb. split.
  - rewrite IHl. lia.
  - rewrite IHc, !hex_digit_lower; [reflexivity | |].
    + apply Z.mod_pos_bound. lia.
    + split; [apply Z.div_pos; lia | apply Z.div_lt_upper_bound; lia].
Qed.

Lemma str_take_exact (n : nat) (s : string) :
  (n <= String.length s)%nat -> String.length (Py.str_take n s) = n.
Proof.
  revert s. induction n as [|n IH]; intros [|c s] H; simpl in *; try reflexivity; try lia.
  rewrite IH; [reflexivity | lia].
Qed.

Lemma str_take_all_chars (P : ascii -> bool) (n : nat) (s : string) :
  all_chars P s = true -> all_chars P (Py.str_take n s) = true.
Proof.
  revert s. induction n as [|n IH]; intros [|c s] H; simpl in *; try reflexivity.
  apply andb_true_iff in H as [Hc Hs]. now rewrite Hc, IH.
Qed.

(** X24. The content hash of any text is a string of exactly 12
    characters, each a digit or a letter from a to f. *)
Theorem content_hash_format (text : string) :
  String.length (Sync.content_hash text) = 12%nat
  /\ all_chars is_lower_hex (Sync.content_hash text) = true.
Proof.
  unfold Sync.content_hash, hexdigest.
  set (msg := map _ _).
  destruct (digest_shape msg) as [Hlen Hrange].
  destruct (hex_shape (digest msg) Hrange) as [Hl Hc].
  split.
  - apply str_take_exact. rewrite Hl, Hlen. lia.
  - now apply str_take_all_chars.
Qed.

End ContentHash.

(** ** Hybrid ranking: the range of the combined score *)

Section CombinedScore.

Import Hybrid.

Local Open Scope Q_scope.

(** X25. When the two weights are not negative and the dense score of a
    hit lies between 0 and 1, its combined score lies between 0 and the
    sum of the weights. *)
Theorem combined_score_range (qk : gset string) (dense_weight keyword_weight : Q)
    (r : candidate) :
  0 <= dense_weight -> 0 <= keyword_weight ->
  0 <= score r -> score r <= 1 ->
  0 <= combined_score (score_candidate qk dense_weight keyword_weight r)
  /\ combined_score (score_candidate qk dense_weight keyword_weight r)
     <= dense_weight + keyword_weight.
Proof.
  intros Hd Hk Hs0 Hs1. cbn [score_candidate combined_score].
  destruct (keyword_score_bounds qk (extract_keywords (content (payload r)))) as [Hk0 Hk1].
  split.
  - rewrite <- (Qplus_0_r 0). apply Qplus_le_compat; now apply Qmult_le_0_compat.
  - apply Qplus_le_compat.
    + rewrite <- (Qmult_1_r dense_weight) at 2.
      rewrite !(Qmult_comm dense_weight). now apply Qmult_le_compat_r.
    + rewrite <- (Qmult_1_r keyword_weight) at 2.
      rewrite !(Qmult_comm keyword_weight). now apply Qmult_le_compat_r.
Qed.

End CombinedScore.

(** ** Import: a document that has grown *)

Section Incremental.

Import Sync.

(** X26. After a run with a ledger path on one text, a run on another text
    against the ledger written stores points only for content hashes that
    the first text did not have: their number, [new], is at most the
    number of hashes of qualifying sections of the second text that are
    not hashes of qualifying sections of the first. *)
Theorem sync_incremental
    (filepath content1 content2 p : string) (w : world) (s1 : stats) (w1 w' : world) :
  Py.truthy p = true ->
  sync_from_markdown filepath content1 (Some p) w = (Return s1, w1) ->
  files w' !! p = files w1 !! p ->
  exists s2 w2 pts,
    sync_from_markdown filepath content2 (Some p) w' = (Return s2, w2)
    /\ points w2 = points w' ++ pts
    /\ length pts = new s2
    /\ new s2 <= size (list_to_set (identities (parse_sections content2))
                        ∖ list_to_set (identities (parse_sections content1)) : gset string)
    /\ new s2 + skipped s2 = length (List.filter qualifies (parse_sections content2)).
Proof.
  intros Hp Hfirst Hfile.
  destruct (sync_persists _ _ _ _ _ _ Hp Hfirst) as (d1 & Hd1 & Hkeys).
  rewrite Hd1 in Hfile.
  unfold sync_from_markdown, load_sync_state. rewrite (given_truthy p Hp), Hfile.
  rewrite import_pass_run.
  set (st0 := {| loop_world := w'; sync_state := d1; loop_stats := fresh_stats |}).
  destruct (run_counts filepath (parse_sections content2) st0)
    as (Hn & Hsum & _ & _ & pts & Hpts & Hl).
  cbn [st0 loop_world loop_stats sync_state fresh_stats new skipped] in Hn, Hsum, Hpts, Hl.
  do 2 eexists. exists pts. split; [reflexivity|].
  unfold save_sync_state. rewrite (given_truthy p Hp). cbn [points].
  split; [exact Hpts|]. split; [lia|]. split.
  - rewrite Hn. cbn [Nat.add]. apply subseteq_size.
    intros h Hh. apply elem_of_difference in Hh as [Hh2 Hh1].
    apply elem_of_difference. split; [exact Hh2|].
    intros Hin. apply Hh1, elem_of_dom, Hkeys. now apply elem_of_list_to_set in Hin.
  - unfold identities in Hsum. rewrite length_map in Hsum. lia.
Qed.

End Incremental.

(** ** The further theorems on the sample data *)

Section SamplesMore.

Import Sync Hybrid KeywordOnly FullSync Sample SampleMore.

Lemma keyword_score_extremes_witness :
  extract_keywords "error 0x1F" <> ∅
  /\ ((keyword_score (extract_keywords "error 0x1F")
         (extract_keywords "parser error 0x1F on startup") == 1)%Q
      <-> extract_keywords "error 0x1F" ⊆ extract_keywords "parser error 0x1F on startup").
Proof.
  assert (Hne : extract_keywords "error 0x1F" <> ∅).
  { intros E. apply (f_equal size) in E. vm_compute in E. discriminate. }
  split; [exact Hne|].
  exact (proj1 (keyword_score_extremes (extract_keywords "error 0x1F")
                  (extract_keywords "parser error 0x1F on startup") Hne)).
Defined.

Lemma keyword_score_monotone_witness :
  extract_keywords "error" ⊆ extract_keywords "parser error"
  /\ (keyword_score (extract_keywords "error 0x1F") (extract_keywords "error")
      <= keyword_score (extract_keywords "error 0x1F") (extract_keywords "parser error"))%Q.
Proof.
  assert (Hsub : extract_keywords "error" ⊆ extract_keywords "parser error").
  { apply (bool_decide_unpack (extract_keywords "error" ⊆ extract_keywords "parser error")).
    vm_compute. exact I. }
  split; [exact Hsub|].
  exact (keyword_score_monotone (extract_keywords "error 0x1F") _ _ Hsub).
Defined.

Lemma hybrid_search_dense_only_witness :
  (0 <= 2)%Z
  /\ dense_ranked (search "error 0x1F" (2 * 2)%Z)
  /\ (0 <= 7 # 10)%Q
  /\ (0 == 0)%Q
  /\ map hit (hybrid_search search "error 0x1F" 2 (7 # 10) 0)
     = firstn (Z.to_nat 2) (search "error 0x1F" (2 * 2)%Z).
Proof.
  assert (H0 : (0 <= 2)%Z) by lia.
  assert (Hd : dense_ranked (search "error 0x1F" (2 * 2)%Z)).
  { unfold dense_ranked. repeat constructor; vm_compute; discriminate. }
  assert (Hw : (0 <= 7 # 10)%Q) by (vm_compute; discriminate).
  assert (Hk : (0 == 0)%Q) by reflexivity.
  repeat (split; [assumption|]).
  exact (hybrid_search_dense_only search "error 0x1F" 2 (7 # 10) 0 H0 Hd Hw Hk).
Defined.

Lemma keyword_only_search_no_keywords_witness :
  extract_keywords "?! ..." = ∅
  /\ keyword_only_search "?! ..." 5 page = Some [].
Proof.
  assert (H : extract_keywords "?! ..." = ∅) by (vm_compute; reflexivity).
  split; [exact H|]. exact (keyword_only_search_no_keywords "?! ..." 5 page H).
Defined.

Lemma parse_sections_ignores_titles_witness :
  List.filter (fun l => negb (Py.startswith "# " l)) (Py.split_lines doc)
  = List.filter (fun l => negb (Py.startswith "# " l)) (Py.split_lines doc_plain)
  /\ parse_sections doc = parse_sections doc_plain.
Proof.
  assert (H : List.filter (fun l => negb (Py.startswith "# " l)) (Py.split_lines doc)
              = List.filter (fun l => negb (Py.startswith "# " l)) (Py.split_lines doc_plain))
    by (vm_compute; reflexivity).
  split; [exact H|]. exact (parse_sections_ignores_titles doc doc_plain H).
Defined.

Lemma doc_plain_no_title :
  Forall (fun l => Py.startswith "# " l = false) (Py.split_lines doc_plain).
Proof. vm_compute. repeat constructor. Qed.

Lemma bench_sections_are_sync_sections_witness :
  Forall (fun l => Py.startswith "# " l = false) (Py.split_lines doc_plain)
  /\ Bench.parse_sections doc_plain = parse_sections doc_plain.
Proof.
  split; [exact doc_plain_no_title|].
  exact (bench_sections_are_sync_sections doc_plain doc_plain_no_title).
Defined.

Lemma import_markdown_stores_fewer_witness :
  Forall (fun l => Py.startswith "# " l = false) (Py.split_lines doc_plain)
  /\ fst (ClientMore.import_markdown "MEMORY.md" doc_plain w0)
     <= length (List.filter qualifies (parse_sections doc_plain)).
Proof.
  split; [exact doc_plain_no_title|].
  exact (import_markdown_stores_fewer "MEMORY.md" doc_plain w0 doc_plain_no_title).
Defined.

Lemma sync_ledger_grows_witness :
  Py.truthy "sync.json" = true
  /\ load_sync_state (Some "sync.json") w0 = Return ∅
  /\ exists s w' d1,
       sync_from_markdown "MEMORY.md" doc (Some "sync.json") w0 = (Return s, w')
       /\ files w' = <[ "sync.json" := Json d1 ]> (files w0)
       /\ ∅ ⊆ d1
       /\ dom d1 = dom (∅ : ledger) ∪ list_to_set (identities (parse_sections doc)).
Proof.
  assert (Hp : Py.truthy "sync.json" = true) by reflexivity.
  assert (Hl : load_sync_state (Some "sync.json") w0 = Return ∅) by reflexivity.
  split; [exact Hp|]. split; [exact Hl|].
  exact (sync_ledger_grows "MEMORY.md" doc "sync.json" w0 ∅ Hp Hl).
Defined.

Lemma sync_stores_new_sections_witness :
  load_sync_state None w0 = Return ∅
  /\ exists s w' pts,
       sync_from_markdown "MEMORY.md" doc None w0 = (Return s, w')
       /\ points w' = points w0 ++ pts
       /\ length pts = new s
       /\ Forall (imported_from "MEMORY.md" (parse_sections doc)) pts
       /\ new s + skipped s = length (List.filter qualifies (parse_sections doc))
       /\ updated s = 0.
Proof.
  assert (Hl : load_sync_state None w0 = Return ∅) by reflexivity.
  split; [exact Hl|].
  exact (sync_stores_new_sections "MEMORY.md" doc None w0 ∅ Hl).
Defined.

Lemma full_sync_twice_witness :
  given (Some "out.md") <> Some (ledger_path "MEMORY.md" None)
  /\ exists w1,
       full_sync fixed1 repr "MEMORY.md" doc (Some "out.md") None [] [] w0
       = (Return first_report, w1)
       /\ exists r2 w2,
            full_sync fixed1 repr "MEMORY.md" doc (Some "out.md") None [] [] w1
            = (Return r2, w2)
            /\ import_stats r2 = {| new := 0; skipped := 2; updated := 0 |}
            /\ points w2 = points w1.
Proof.
  assert (Hout : given (Some "out.md") <> Some (ledger_path "MEMORY.md" None)).
  { intros E. vm_compute in E. discriminate. }
  split; [exact Hout|].
  exists (snd (full_sync fixed1 repr "MEMORY.md" doc (Some "out.md") None [] [] w0)).
  assert (H1 : full_sync fixed1 repr "MEMORY.md" doc (Some "out.md") None [] [] w0
               = (Return first_report,
                  snd (full_sync fixed1 repr "MEMORY.md" doc (Some "out.md") None [] [] w0)))
    by (vm_compute; reflexivity).
  split; [exact H1|].
  destruct (full_sync_twice fixed1 repr "MEMORY.md" doc (Some "out.md") None
              [] [] [] [] w0 _ first_report Hout H1)
    as (r2 & w2 & Hrun & Hstats & Hpts & _).
  exists r2, w2. split; [exact Hrun|]. split; [exact Hstats | exact Hpts].
Defined.

Lemma full_sync_export_onto_ledger_witness :
  given (Some "MEMORY.md.sync.json") = Some (ledger_path "MEMORY.md" None)
  /\ exists w1,
       full_sync fixed1 repr "MEMORY.md" doc (Some "MEMORY.md.sync.json") None [] [] w0
       = (Return first_report, w1)
       /\ full_sync fixed1 repr "MEMORY.md" doc (Some "MEMORY.md.sync.json") None [] [] w1
          = (Raise JSONDecodeError, w1).
Proof.
  assert (Hout : given (Some "MEMORY.md.sync.json") = Some (ledger_path "MEMORY.md" None))
    by reflexivity.
  split; [exact Hout|].
  exists (snd (full_sync fixed1 repr "MEMORY.md" doc (Some "MEMORY.md.sync.json") None [] [] w0)).
  assert (H1 : full_sync fixed1 repr "MEMORY.md" doc (Some "MEMORY.md.sync.json") None [] [] w0
               = (Return first_report,
                  snd (full_sync fixed1 repr "MEMORY.md" doc (Some "MEMORY.md.sync.json")
                         None [] [] w0)))
    by (vm_compute; reflexivity).
  split; [exact H1|].
  exact (full_sync_export_onto_ledger fixed1 repr "MEMORY.md" doc
           (Some "MEMORY.md.sync.json") None [] [] [] [] w0 _ first_report Hout H1).
Defined.

Lemma combined_score_range_witness :
  (0 <= 7 # 10)%Q /\ (0 <= 3 # 10)%Q
  /\ (0 <= score (hit_of (9 # 10) "parser error"))%Q
  /\ (score (hit_of (9 # 10) "parser error") <= 1)%Q
  /\ (combined_score (score_candidate (extract_keywords "error") (7 # 10) (3 # 10)
                        (hit_of (9 # 10) "parser error")) <= (7 # 10) + (3 # 10))%Q.
Proof.
  assert (H1 : (0 <= 7 # 10)%Q) by (vm_compute; discriminate).
  assert (H2 : (0 <= 3 # 10)%Q) by (vm_compute; discriminate).
  assert (H3 : (0 <= score (hit_of (9 # 10) "parser error"))%Q) by (vm_compute; discriminate).
  assert (H4 : (score (hit_of (9 # 10) "parser error") <= 1)%Q) by (vm_compute; discriminate).
  repeat (split; [assumption|]).
  exact (proj2 (combined_score_range (extract_keywords "error") (7 # 10) (3 # 10)
                  (hit_of (9 # 10) "parser error") H1 H2 H3 H4)).
Defined.

(** The sample document with one more section. *)
Lemma sync_incremental_witness :
  Py.truthy "sync.json" = true
  /\ exists s1 w1,
       sync_from_markdown "MEMORY.md" doc (Some "sync.json") w0 = (Return s1, w1)
       /\ exists s2 w2 pts,
            sync_from_markdown "MEMORY.md" doc_grown (Some "sync.json") w1 = (Return s2, w2)
            /\ points w2 = points w1 ++ pts
            /\ length pts = new s2.
Proof.
  assert (Hp : Py.truthy "sync.json" = true) by reflexivity.
  split; [exact Hp|].
  exists (returned_stats (sync_from_markdown "MEMORY.md" doc (Some "sync.json") w0)),
         (snd (sync_from_markdown "MEMORY.md" doc (Some "sync.json") w0)).
  assert (H1 : sync_from_markdown "MEMORY.md" doc (Some "sync.json") w0
               = (Return (returned_stats (sync_from_markdown "MEMORY.md" doc (Some "sync.json") w0)),
                  snd (sync_from_markdown "MEMORY.md" doc (Some "sync.json") w0)))
    by (vm_compute; reflexivity).
  split; [exact H1|].
  destruct (sync_incremental "MEMORY.md" doc doc_grown "sync.json" w0 _ _ _ Hp H1 eq_refl)
    as (s2 & w2 & pts & Hrun & Hpts & Hlen & _).
  exists s2, w2, pts. split; [exact Hrun|]. split; [exact Hpts | exact Hlen].
Defined.

(** The grown document brings one new point. *)
Example sync_incremental_sample :
  fst (sync_from_markdown "MEMORY.md" doc_grown (Some "sync.json")
         (snd (sync_from_markdown "MEMORY.md" doc (Some "sync.json") w0)))
  = Return {| new := 1; skipped := 2; updated := 0 |}.
Proof. vm_compute. reflexivity. Qed.

(** The further functions on the sample data. *)
Example keyword_only_search_sample :
  option_map (map (fun h => (kw_content h, Qred (kw_keyword_score h), matched_keywords h)))
    (keyword_only_search "error 0x1F" 5 page)
  = Some [("parser error 0x1F on startup", 1%Q, ["error"; "0x1f"; "0x1F"]);
          ("an error in the dashboard", (1 # 3)%Q, ["error"])].
Proof. vm_compute. reflexivity. Qed.

Example markdown_search_sample :
  option_map (map (fun h => (Bench.md_header h, Qred (Bench.md_score h))))
    (Bench.markdown_search doc "Docker  replicas missing" 5)
  = Some [("Project Notes", (2 # 3)%Q); ("Project Notes Again", (2 # 3)%Q)].
Proof. vm_compute. reflexivity. Qed.

Example ingest_transcript_sample :
  let '(n, w) := Transcript.ingest_transcript not_json transcript None w0 in
  n = 3
  /\ map point_content (points w)
     = ["[user] I prefer dark mode for the dashboard";
        "[assistant] I configured the dark theme for you";
        "[user] just a line that belongs to nobody in particular"].
Proof. vm_compute. split; reflexivity. Qed.

Example split_ws_sample : PyMore.split_ws "  hello   big world " = ["hello"; "big"; "world"].
Proof. reflexivity. Qed.

End SamplesMore.
